(** * The Outlook [.msg] converter of markitdown

    A shallow embedding of
    [packages/markitdown/src/markitdown/converters/_outlook_msg_converter.py]
    and the properties of its format detector ([accepts]) and of its
    extraction pipeline ([convert], [_get_stream_data],
    [_strip_null_terminator], [_process_html_stream]).

    Python values are modelled as the converter uses them: a [str] is the
    list of its code points, a [bytes] object the list of its bytes, an
    exception is an outcome [Raise e], and the objects the converter mutates
    (the cursor of the input stream, the container handle) live in an explicit
    [World] that every statement threads. *)

From Stdlib Require Import List String Ascii PeanoNat NArith Bool Lia Wf_nat.
From Stdlib.Strings Require Import Byte.
Import ListNotations.
Local Open Scope N_scope.
Local Open Scope list_scope.

(** ** Python values and built-ins *)

Module Py.

(** A [str] is a sequence of Unicode code points. *)
Definition str := list N.
Definition bytes := list byte.

(** A literal of the source text (ASCII only). *)
Definition lit (s : string) : str :=
  map N_of_ascii (list_ascii_of_string s).

Definition NL : str := [10].

(** The exception classes the converter can meet; all of them derive from
    [Exception].  [LibraryError] stands for whatever a collaborator raises
    ([OSError], [olefile.OleFileError], ...), told apart by a tag. *)
Inductive exn : Type :=
| UnicodeDecodeError
| TypeError
| AssertionError
| ImportError
| MissingDependencyException (message : str)
| LibraryError (tag : N).

Inductive res (A : Type) : Type :=
| Ok (a : A)
| Raise (e : exn).
Arguments Ok {A} a.
Arguments Raise {A} e.

Definition res_bind {A B} (r : res A) (k : A -> res B) : res B :=
  match r with Ok a => k a | Raise e => Raise e end.

Definition is_UnicodeDecodeError (e : exn) : bool :=
  match e with UnicodeDecodeError => true | _ => false end.

Definition res_map {A B} (f : A -> B) (r : res A) : res B :=
  match r with Ok a => Ok (f a) | Raise e => Raise e end.

(** [try: body / except UnicodeDecodeError: handler] on pure computations. *)
Definition try_except_decode {A} (body : res A) (handler : res A) : res A :=
  match body with
  | Ok a => Ok a
  | Raise e => if is_UnicodeDecodeError e then handler else Raise e
  end.

(** Truthiness of an optional string: [None] and [""] are falsy. *)
Definition truthy (v : option str) : bool :=
  match v with Some (_ :: _) => true | _ => false end.

(** [a + b] on values that are a [str] or [None]. *)
Definition add (a b : option str) : res str :=
  match a, b with
  | Some x, Some y => Ok (x ++ y)
  | _, _ => Raise TypeError
  end.

(** *** Strings *)

Fixpoint str_eqb (a b : str) : bool :=
  match a, b with
  | [], [] => true
  | x :: a', y :: b' => (x =? y) && str_eqb a' b'
  | _, _ => false
  end.

Fixpoint startswith (s prefix : str) : bool :=
  match prefix, s with
  | [], _ => true
  | p :: prefix', c :: s' => (c =? p) && startswith s' prefix'
  | _ :: _, [] => false
  end.

Definition endswith (s suffix : str) : bool :=
  startswith (rev s) (rev suffix).

(** [needle in hay]. *)
Fixpoint contains (needle hay : str) : bool :=
  startswith hay needle ||
  match hay with
  | [] => false
  | _ :: hay' => contains needle hay'
  end.

(** [x in l] for a list of strings. *)
Definition mem (x : str) (l : list str) : bool := existsb (str_eqb x) l.

Fixpoint join (sep : str) (l : list str) : str :=
  match l with
  | [] => []
  | [x] => x
  | x :: l' => x ++ sep ++ join sep l'
  end.

(** [str.isspace] on one code point (CPython's [_PyUnicode_IsWhitespace]). *)
Definition isspace (c : N) : bool :=
  ((0x09 <=? c) && (c <=? 0x0D)) || ((0x1C <=? c) && (c <=? 0x20))
  || (c =? 0x85) || (c =? 0xA0) || (c =? 0x1680)
  || ((0x2000 <=? c) && (c <=? 0x200A))
  || (c =? 0x2028) || (c =? 0x2029) || (c =? 0x202F) || (c =? 0x205F)
  || (c =? 0x3000).

Fixpoint lstrip (s : str) : str :=
  match s with
  | c :: s' => if isspace c then lstrip s' else s
  | [] => []
  end.

Definition rstrip (s : str) : str := rev (lstrip (rev s)).

Definition strip (s : str) : str := rstrip (lstrip s).

(** *** Codecs *)

Inductive errors : Type := Strict | Ignore.

(** What a decoder does at a malformed sequence: raise, or drop the
    offending bytes and go on with [k]. *)
Definition on_error (mode : errors) (k : res str) : res str :=
  match mode with
  | Strict => Raise UnicodeDecodeError
  | Ignore => k
  end.

Definition unit16 (lo hi : byte) : N := Byte.to_N lo + 256 * Byte.to_N hi.

(** [b.decode("utf-16-le")]: an odd byte at the end is truncated data and a
    surrogate that is not half of a pair is illegal. *)
Fixpoint decode_utf16le (b : bytes) : res str :=
  match b with
  | [] => Ok []
  | [_] => Raise UnicodeDecodeError
  | lo :: hi :: rest =>
      let u := unit16 lo hi in
      if (u <? 0xD800) || (0xDFFF <? u) then
        res_map (cons u) (decode_utf16le rest)
      else if u <=? 0xDBFF then
        match rest with
        | lo2 :: hi2 :: rest' =>
            let u2 := unit16 lo2 hi2 in
            if (0xDC00 <=? u2) && (u2 <=? 0xDFFF) then
              res_map (cons (0x10000 + (u - 0xD800) * 0x400 + (u2 - 0xDC00)))
                      (decode_utf16le rest')
            else Raise UnicodeDecodeError
        | _ => Raise UnicodeDecodeError
        end
      else Raise UnicodeDecodeError
  end.

(** [b.decode("iso-8859-1")]: every byte is the code point of its value. *)
Definition decode_latin1 (b : bytes) : res str := Ok (map Byte.to_N b).

Definition is_continuation (c : N) : bool := (0x80 <=? c) && (c <=? 0xBF).

(** [b.decode("utf-8", errors=mode)], after CPython's decoder: at a
    malformed sequence the lead byte and the continuation bytes already
    accepted form the erroneous range, and a sequence cut short by the end
    of the data takes all that is left with it. *)
Fixpoint decode_utf8 (mode : errors) (b : bytes) : res str :=
  match b with
  | [] => Ok []
  | b0 :: r1 =>
      let c0 := Byte.to_N b0 in
      if c0 <? 0x80 then res_map (cons c0) (decode_utf8 mode r1)
      else if c0 <? 0xC2 then on_error mode (decode_utf8 mode r1)
      else if c0 <? 0xE0 then
        match r1 with
        | [] => on_error mode (Ok [])
        | b1 :: r2 =>
            let c1 := Byte.to_N b1 in
            if is_continuation c1 then
              res_map (cons ((c0 - 0xC0) * 0x40 + (c1 - 0x80)))
                      (decode_utf8 mode r2)
            else on_error mode (decode_utf8 mode r1)
        end
      else if c0 <? 0xF0 then
        match r1 with
        | [] => on_error mode (Ok [])
        | b1 :: r2 =>
            let c1 := Byte.to_N b1 in
            if negb (is_continuation c1)
               || (if c1 <? 0xA0 then c0 =? 0xE0 else c0 =? 0xED)
            then on_error mode (decode_utf8 mode r1)
            else
              match r2 with
              | [] => on_error mode (Ok [])
              | b2 :: r3 =>
                  let c2 := Byte.to_N b2 in
                  if is_continuation c2 then
                    res_map (cons ((c0 - 0xE0) * 0x1000 + (c1 - 0x80) * 0x40
                                   + (c2 - 0x80)))
                            (decode_utf8 mode r3)
                  else on_error mode (decode_utf8 mode r2)
              end
        end
      else if c0 <? 0xF5 then
        match r1 with
        | [] => on_error mode (Ok [])
        | b1 :: r2 =>
            let c1 := Byte.to_N b1 in
            if negb (is_continuation c1)
               || (if c1 <? 0x90 then c0 =? 0xF0 else c0 =? 0xF4)
            then on_error mode (decode_utf8 mode r1)
            else
              match r2 with
              | [] => on_error mode (Ok [])
              | b2 :: r3 =>
                  let c2 := Byte.to_N b2 in
                  if negb (is_continuation c2)
                  then on_error mode (decode_utf8 mode r2)
                  else
                    match r3 with
                    | [] => on_error mode (Ok [])
                    | b3 :: r4 =>
                        let c3 := Byte.to_N b3 in
                        if is_continuation c3 then
                          res_map (cons ((c0 - 0xF0) * 0x40000
                                         + (c1 - 0x80) * 0x1000
                                         + (c2 - 0x80) * 0x40 + (c3 - 0x80)))
                                  (decode_utf8 mode r4)
                        else on_error mode (decode_utf8 mode r3)
                    end
              end
        end
      else on_error mode (decode_utf8 mode r1)
  end.

(** The bytes of an ASCII literal, and its UTF-16LE encoding. *)
Definition ascii_bytes (s : string) : bytes :=
  map byte_of_ascii (list_ascii_of_string s).

Definition utf16le_bytes (s : string) : bytes :=
  flat_map (fun a => [byte_of_ascii a; x00%byte]) (list_ascii_of_string s).

(** [str.lower] on the code points below [0x100]; used to run the converter
    on sample inputs, whose text stays in that range. *)
Definition lower_latin1 (s : str) : str :=
  map (fun c =>
         if ((0x41 <=? c) && (c <=? 0x5A))
            || ((0xC0 <=? c) && (c <=? 0xDE) && negb (c =? 0xD7))
         then c + 0x20 else c) s.

End Py.

Import Py.

Declare Scope res_scope.
Delimit Scope res_scope with res.
Notation "x <~ e ;; k" := (res_bind e (fun x => k))
  (at level 61, e at next level, right associativity) : res_scope.
Local Open Scope res_scope.


(** ** The olefile package, as the converter sees it *)

Module Ole.

(** The calls made on a container, in the order they are made. *)
Inductive event : Type :=
| Open
| Listdir
| Exists (path : str)
| OpenStream (path : str)
| Close.

(** An opened container ([olefile.OleFileIO]).  Its methods answer or raise;
    [moves] says where a call leaves the cursor of the stream the container
    was opened on. *)
Record OleFileIO : Type := {
  exists_ : str -> res bool;
  openstream_read : str -> res bytes;
  listdir : res (list (list str));
  moves : event -> N -> N
}.

(** The module: [isOleFile] looks at the stream and answers, the
    constructor [OleFileIO(stream)] may fail; both start from the current
    cursor and leave it somewhere. *)
Record module : Type := {
  isOleFile : bytes -> N -> bool * N;
  new : bytes -> N -> res OleFileIO * N
}.

End Ole.

(** ** The mutable world and its monad *)

Record World : Type := mkWorld {
  cursor : N;               (* read position of [file_stream] *)
  open_handles : nat;       (* containers opened and not yet closed *)
  trace : list Ole.event    (* container calls made so far *)
}.

Definition M (A : Type) : Type := World -> res A * World.

Definition ret {A} (a : A) : M A := fun w => (Ok a, w).

Definition raise {A} (e : exn) : M A := fun w => (Raise e, w).

Definition bind {A B} (m : M A) (k : A -> M B) : M B :=
  fun w =>
    match m w with
    | (Ok a, w') => k a w'
    | (Raise e, w') => (Raise e, w')
    end.

Definition lift {A} (r : res A) : M A := fun w => (r, w).

Declare Scope py_scope.
Delimit Scope py_scope with py.
Notation "x <- e ;; k" := (bind e (fun x => k))
  (at level 61, e at next level, right associativity) : py_scope.
Notation "e ;;; k" := (bind e (fun _ => k))
  (at level 61, right associativity) : py_scope.
Local Open Scope py_scope.

(** [try: body / except Exception: handler]. *)
Definition try_except {A} (body : M A) (handler : exn -> M A) : M A :=
  fun w =>
    match body w with
    | (Ok a, w') => (Ok a, w')
    | (Raise e, w') => handler e w'
    end.

(** [try: body / finally: final]: [final] runs on every way out of [body]. *)
Definition try_finally {A} (body : M A) (final : M unit) : M A :=
  fun w =>
    match body w with
    | (r, w') =>
        match final w' with
        | (Ok _, w'') => (r, w'')
        | (Raise e, w'') => (Raise e, w'')
        end
    end.

(** *** The input stream *)

Definition tell : M N := fun w => (Ok (cursor w), w).

Definition seek (pos : N) : M unit :=
  fun w => (Ok tt, mkWorld pos (open_handles w) (trace w)).

(** *** Calls into olefile *)

Definition call_isOleFile (ole : Ole.module) (file_stream : bytes) : M bool :=
  fun w =>
    let (b, c) := Ole.isOleFile ole file_stream (cursor w) in
    (Ok b, mkWorld c (open_handles w) (trace w)).

Definition call_OleFileIO (ole : Ole.module) (file_stream : bytes)
  : M Ole.OleFileIO :=
  fun w =>
    match Ole.new ole file_stream (cursor w) with
    | (Ok msg, c) =>
        (Ok msg, mkWorld c (S (open_handles w)) (trace w ++ [Ole.Open]))
    | (Raise e, c) => (Raise e, mkWorld c (open_handles w) (trace w))
    end.

Definition method {A} (msg : Ole.OleFileIO) (ev : Ole.event) (r : res A) : M A :=
  fun w =>
    (r, mkWorld (Ole.moves msg ev (cursor w)) (open_handles w) (trace w ++ [ev])).

Definition msg_exists (msg : Ole.OleFileIO) (path : str) : M bool :=
  method msg (Ole.Exists path) (Ole.exists_ msg path).

Definition msg_openstream_read (msg : Ole.OleFileIO) (path : str) : M bytes :=
  method msg (Ole.OpenStream path) (Ole.openstream_read msg path).

Definition msg_listdir (msg : Ole.OleFileIO) : M (list (list str)) :=
  method msg Ole.Listdir (Ole.listdir msg).

Definition msg_close (msg : Ole.OleFileIO) : M unit :=
  fun w =>
    (Ok tt, mkWorld (Ole.moves msg Ole.Close (cursor w))
                    (pred (open_handles w)) (trace w ++ [Ole.Close])).

(** ** The converter *)

Definition ACCEPTED_MIME_TYPE_PREFIXES : list str :=
  [lit "application/vnd.ms-outlook"].

Definition ACCEPTED_FILE_EXTENSIONS : list str := [lit ".msg"].

(** The stream paths [convert] reads. *)
Definition PATH_SENDER_NAME : str := lit "__substg1.0_0C1A001F".
Definition PATH_SENDER_EMAIL : str := lit "__substg1.0_5D01001F".
Definition PATH_TO : str := lit "__substg1.0_0E04001F".
Definition PATH_SUBJECT : str := lit "__substg1.0_0037001F".
Definition PATH_BODY : str := lit "__substg1.0_1000001F".
Definition PATH_HTML : str := lit "__substg1.0_10130102".

Record DocumentConverterResult : Type := {
  markdown : str;
  title : option str
}.

(** A [StreamInfo] ([_stream_info.py]): the two attributes [accepts] reads,
    and the others kept together. *)
Record StreamInfoOf (Rest : Type) : Type := {
  mimetype : option str;
  extension : option str;
  stream_info_rest : Rest
}.
Arguments mimetype {Rest} _.
Arguments extension {Rest} _.
Arguments stream_info_rest {Rest} _.
Arguments Build_StreamInfoOf {Rest} _ _ _.

(** [d.get(key)] on a dict literal kept in insertion order. *)
Fixpoint dict_get (d : list (str * option str)) (key : str) : option str :=
  match d with
  | [] => None
  | (k, v) :: d' => if str_eqb k key then v else dict_get d' key
  end.

(** [_strip_null_terminator]. *)
Definition _strip_null_terminator (text : str) : str :=
  let text :=
    if truthy (Some text) && endswith text [0] then removelast text else text
  in
  strip text.

(** ** Sample inputs

    A container given by the streams it holds, a package that opens every
    input as that container, and stand-ins for the collaborators; the
    properties below are run on them. *)

Module Sample.

Definition container (streams : list (str * bytes)) : Ole.OleFileIO :=
  {| Ole.exists_ := fun p => Ok (existsb (fun kv => str_eqb (fst kv) p) streams);
     Ole.openstream_read := fun p =>
       match find (fun kv => str_eqb (fst kv) p) streams with
       | Some kv => Ok (snd kv)
       | None => Raise (LibraryError 2)
       end;
     Ole.listdir := Ok (map (fun kv => [fst kv]) streams);
     Ole.moves := fun _ c => c + 512 |}.

Definition package (streams : list (str * bytes)) : Ole.module :=
  {| Ole.isOleFile := fun _ _ => (true, 0);
     Ole.new := fun _ _ => (Ok (container streams), 0) |}.

(** A package whose constructor fails on the input after [isOleFile] let it
    through. *)
Definition failing_package : Ole.module :=
  {| Ole.isOleFile := fun _ _ => (true, 0);
     Ole.new := fun _ _ => (Raise (LibraryError 1), 8) |}.

Definition htmlToText (html : str) : str := lit "MD(" ++ html ++ lit ")".

Definition repr (s : str) : str := lit "'" ++ s ++ lit "'".

Definition message_format (converter extension feature : str) : str :=
  converter ++ lit ": install [" ++ feature ++ lit "] to read "
            ++ extension.

Definition world : World := mkWorld 7 0 [].

(** A message with sender, subject, a plain body and an HTML body. *)
Definition full_message : list (str * bytes) :=
  [(lit "__properties_version1.0", []);
   (lit "__recip_version1.0_#00000000", []);
   (PATH_SENDER_NAME, utf16le_bytes "Alice");
   (PATH_SENDER_EMAIL, utf16le_bytes "a@x.com");
   (PATH_SUBJECT, utf16le_bytes "Hi");
   (PATH_BODY, utf16le_bytes "Hi there");
   (PATH_HTML, ascii_bytes "<html><body>Hi</body></html>")].

(** The same message without the stream of the sender's display name. *)
Definition nameless_message : list (str * bytes) :=
  [(PATH_SENDER_EMAIL, utf16le_bytes "a@x.com");
   (PATH_SUBJECT, utf16le_bytes "Hi");
   (PATH_BODY, utf16le_bytes "Hi there")].

(** A message whose subject stream holds "Hello" and its terminator. *)
Definition hello_message : list (str * bytes) :=
  [(PATH_SUBJECT, utf16le_bytes "Hello" ++ [x00; x00]%byte)].

(** Stream infos: nothing declared, and a declared extension in capitals;
    the remaining attributes are a file name. *)
Definition undeclared (filename : string) : StreamInfoOf string :=
  {| mimetype := None; extension := None; stream_info_rest := filename |}.

Definition declared_msg : StreamInfoOf string :=
  {| mimetype := None; extension := Some (lit ".MSG");
     stream_info_rest := "mail.MSG"%string |}.

(** A world in which other containers were opened and read before. *)
Definition used_world : World :=
  mkWorld 7 2 [Ole.Open; Ole.Exists PATH_SUBJECT; Ole.Open].

(** A message with a sender and a subject and no body at all. *)
Definition bare_message : list (str * bytes) :=
  [(PATH_SENDER_NAME, utf16le_bytes "Alice");
   (PATH_SENDER_EMAIL, utf16le_bytes "a@x.com");
   (PATH_SUBJECT, utf16le_bytes " Hi ")].

(** The bare message in a container that lists an HTML stream it cannot
    read. *)
Definition corrupt_container : Ole.OleFileIO :=
  {| Ole.exists_ := fun p =>
       if str_eqb p PATH_HTML then Ok true
       else Ole.exists_ (container bare_message) p;
     Ole.openstream_read := fun p =>
       if str_eqb p PATH_HTML then Raise (LibraryError 3)
       else Ole.openstream_read (container bare_message) p;
     Ole.listdir := Ole.listdir (container bare_message);
     Ole.moves := Ole.moves (container bare_message) |}.

(** A message whose plain body is two spaces, with an HTML body. *)
Definition blank_body_message : list (str * bytes) :=
  [(PATH_SENDER_NAME, utf16le_bytes "Alice");
   (PATH_SENDER_EMAIL, utf16le_bytes "a@x.com");
   (PATH_BODY, utf16le_bytes "  ");
   (PATH_HTML, ascii_bytes "<html><body>Hi</body></html>")].




Definition corrupt_package : Ole.module :=
  {| Ole.isOleFile := fun _ _ => (true, 0);
     Ole.new := fun _ _ => (Ok corrupt_container, 0) |}.

End Sample.

Section Converter.

(** Collaborators and built-ins taken as given: markdownify's
    [markdownify], [str.lower], [repr] on a [str], and
    [MISSING_DEPENDENCY_MESSAGE.format(converter=, extension=, feature=)]
    of [_exceptions.py]. *)
Variable Markdownify : str -> str.
Variable str_lower : str -> str.
Variable str_repr : str -> str.
Variable MISSING_DEPENDENCY_MESSAGE_format : str -> str -> str -> str.

(** The type of the attributes of a [StreamInfo] other than the two
    [accepts] reads, and of the keyword arguments passed to a converter. *)
Variable StreamInfoRest : Type.
Variable Kwargs : Type.

Local Abbreviation StreamInfo := (StreamInfoOf StreamInfoRest).

(** What [import olefile] gave when the module was loaded: the package, or
    [None] after an [ImportError]. *)
Variable import_olefile : option Ole.module.

Definition olefile : option Ole.module := import_olefile.

Definition _dependency_exc_info : option exn :=
  match import_olefile with
  | Some _ => None
  | None => Some ImportError
  end.

(** [x or ""]. *)
Definition or_empty (x : option str) : str :=
  match x with
  | Some (c :: s) => c :: s
  | _ => []
  end.

(** [str(stream)] for one entry of [listdir()], a list of names. *)
Definition str_of_entry (stream : list str) : str :=
  lit "[" ++ join (lit ", ") (map str_repr stream) ++ lit "]".

(** [accepts].  A [return] from inside a [try] is the value [Some b] of the
    block; [None] means control fell out of its end. *)
Definition accepts (file_stream : bytes) (stream_info : StreamInfo)
           (kwargs : Kwargs) : M bool :=
  (let mimetype_ := str_lower (or_empty (mimetype stream_info)) in
   let extension_ := str_lower (or_empty (extension stream_info)) in
   if mem extension_ ACCEPTED_FILE_EXTENSIONS then ret true
   else if existsb (startswith mimetype_) ACCEPTED_MIME_TYPE_PREFIXES
   then ret true
   else
     cur_pos <- tell ;;
     r1 <- try_finally
             (match olefile with
              | Some ole =>
                  is_ole <- call_isOleFile ole file_stream ;;
                  if negb is_ole then ret (Some false) else ret None
              | None => ret None
              end)
             (seek cur_pos) ;;
     match r1 with
     | Some b => ret b
     | None =>
         r2 <- try_finally
                 (try_except
                    (match olefile with
                     | Some ole =>
                         msg <- call_OleFileIO ole file_stream ;;
                         entries <- msg_listdir msg ;;
                         let toc := join NL (map str_of_entry entries) in
                         ret (Some (contains (lit "__properties_version1.0") toc
                                    && contains (lit "__recip_version1.0_#00000000") toc))
                     | None => ret None
                     end)
                    (fun _ => ret None))
                 (seek cur_pos) ;;
         match r2 with
         | Some b => ret b
         | None => ret false
         end
     end).

(** The decode chain of [_get_stream_data], on the bytes read. *)
Definition decode_stream_data (data : bytes) : res str :=
  try_except_decode
    (text <~ decode_utf16le data ;; Ok (_strip_null_terminator text))
    (try_except_decode
       (text <~ decode_utf8 Strict data ;; Ok (_strip_null_terminator text))
       (text <~ decode_utf8 Ignore data ;; Ok (_strip_null_terminator text))).

(** [_get_stream_data].  Its second assertion, that [msg] is an
    [olefile.OleFileIO], is the type of [msg] here. *)
Definition _get_stream_data (msg : Ole.OleFileIO) (stream_path : str)
  : M (option str) :=
  (match olefile with
   | None => raise AssertionError
   | Some _ =>
       try_except
         (found <- msg_exists msg stream_path ;;
          if found then
            data <- msg_openstream_read msg stream_path ;;
            text <- lift (decode_stream_data data) ;;
            ret (Some text)
          else ret None)
         (fun _ => ret None)
   end).

Definition is_valid_html (content : str) : bool :=
  let markers := [lit "<html"; lit "<body"; lit "<head"; lit "<div"] in
  let content_lower := str_lower content in
  existsb (fun marker => contains marker content_lower) markers.

(** [_process_html_stream].  Inside the [try] blocks [Some s] is a
    [return s] and [None] the end of the block, after which the function
    returns [""]. *)
Definition _process_html_stream (raw_data : bytes) : res str :=
  (r <~ try_except_decode
          (text <~ decode_utf16le raw_data ;;
           let html := _strip_null_terminator text in
           if is_valid_html html then Ok (Some (Markdownify html))
           else
             text <~ decode_latin1 raw_data ;;
             let html := _strip_null_terminator text in
             if is_valid_html html then Ok (Some (Markdownify html))
             else
               text <~ decode_utf8 Ignore raw_data ;;
               let html := _strip_null_terminator text in
               if is_valid_html html then Ok (Some (Markdownify html))
               else Ok None)
          (try_except_decode
             (text <~ decode_latin1 raw_data ;;
              let html := _strip_null_terminator text in
              if is_valid_html html then Ok (Some (Markdownify html))
              else Ok None)
             (Ok None)) ;;
   match r with
   | Some s => Ok s
   | None => Ok []
   end).

(** One turn of the loop over [headers.items()]. *)
Definition add_header (md_content : str) (item : str * option str) : str :=
  let (key, value) := item in
  if truthy value
  then md_content ++ lit "**" ++ key ++ lit ":** " ++ or_empty value ++ NL
  else md_content.

(** [convert]. *)
Definition convert (file_stream : bytes) (stream_info : StreamInfo)
           (kwargs : Kwargs) : M DocumentConverterResult :=
  (match _dependency_exc_info with
   | Some _ =>
       raise (MissingDependencyException
                (MISSING_DEPENDENCY_MESSAGE_format
                   (lit "OutlookMsgConverter") (lit ".msg") (lit "outlook")))
   | None =>
       match olefile with
       | None => raise AssertionError
       | Some ole =>
           msg <- call_OleFileIO ole file_stream ;;
           let md_content := lit "# Email Message" ++ NL ++ NL in
           sender <- _get_stream_data msg PATH_SENDER_NAME ;;
           from1 <- lift (add sender (Some (lit " <"))) ;;
           email <- _get_stream_data msg PATH_SENDER_EMAIL ;;
           from2 <- lift (add (Some from1) email) ;;
           from3 <- lift (add (Some from2) (Some (lit ">"))) ;;
           to <- _get_stream_data msg PATH_TO ;;
           subject <- _get_stream_data msg PATH_SUBJECT ;;
           let headers := [(lit "From", Some from3);
                           (lit "To", to);
                           (lit "Subject", subject)] in
           let md_content := fold_left add_header headers md_content in
           let md_content := md_content ++ NL ++ lit "## Content" ++ NL ++ NL in
           body <- _get_stream_data msg PATH_BODY ;;
           md_content <-
             (if truthy body then ret (md_content ++ or_empty body)
              else
                has_html <- msg_exists msg PATH_HTML ;;
                if has_html then
                  raw_data <- msg_openstream_read msg PATH_HTML ;;
                  html_content <- lift (_process_html_stream raw_data) ;;
                  if truthy (Some html_content)
                     && (0 <? N.of_nat (List.length html_content))
                  then ret (md_content ++ html_content)
                  else ret md_content
                else ret md_content) ;;
           msg_close msg ;;;
           ret {| markdown := strip md_content;
                  title := dict_get headers (lit "Subject") |}
       end
   end).

(** ** The specification's wording

    The decoders and the fallback chains as the specification describes
    them, to be compared with the functions above. *)

(** Terminator and whitespace normalization: drop one trailing null, then
    trim. *)
Definition spec_normalize (text : str) : str :=
  strip (match rev text with
         | 0 :: front => rev front
         | _ => text
         end).

Definition latin1_text (raw : bytes) : str := map Byte.to_N raw.

Definition utf8_discard_text (raw : bytes) : str :=
  match decode_utf8 Ignore raw with
  | Ok text => text
  | Raise _ => []
  end.

(** Stream decoder: the first decode that succeeds, of UTF-16LE, UTF-8, and
    UTF-8 with invalid sequences discarded. *)
Definition spec_first_decode (data : bytes) : str :=
  match decode_utf16le data with
  | Ok text => text
  | Raise _ =>
      match decode_utf8 Strict data with
      | Ok text => text
      | Raise _ => utf8_discard_text data
      end
  end.

(** [decodeStream(container, path)]: absent when the stream does not exist or
    the lookup or the read fails. *)
Definition spec_decodeStream (msg : Ole.OleFileIO) (path : str) : option str :=
  match Ole.exists_ msg path with
  | Ok true =>
      match Ole.openstream_read msg path with
      | Ok data => Some (spec_normalize (spec_first_decode data))
      | Raise _ => None
      end
  | _ => None
  end.

(** A stream the decoder cannot deliver: it does not exist, or looking it up
    or reading it raises. *)
Definition stream_absent (msg : Ole.OleFileIO) (path : str) : Prop :=
  Ole.exists_ msg path <> Ok true
  \/ exists e, Ole.openstream_read msg path = Raise e.

(** The container calls one field costs. *)
Definition field_events (msg : Ole.OleFileIO) (path : str) : list Ole.event :=
  match Ole.exists_ msg path with
  | Ok true => [Ole.Exists path; Ole.OpenStream path]
  | _ => [Ole.Exists path]
  end.

(** Where the calls for one field leave the cursor. *)
Definition field_cursor (msg : Ole.OleFileIO) (path : str) (c : N) : N :=
  match Ole.exists_ msg path with
  | Ok true =>
      Ole.moves msg (Ole.OpenStream path) (Ole.moves msg (Ole.Exists path) c)
  | _ => Ole.moves msg (Ole.Exists path) c
  end.

(** The world after the calls for one field, after the container was opened,
    and after it was closed. *)
Definition after_field (msg : Ole.OleFileIO) (path : str) (w : World) : World :=
  mkWorld (field_cursor msg path (cursor w)) (open_handles w)
          (trace w ++ field_events msg path).

Definition after_call (msg : Ole.OleFileIO) (ev : Ole.event) (w : World) : World :=
  mkWorld (Ole.moves msg ev (cursor w)) (open_handles w) (trace w ++ [ev]).

Definition after_open (c : N) (w : World) : World :=
  mkWorld c (S (open_handles w)) (trace w ++ [Ole.Open]).

Definition after_close (msg : Ole.OleFileIO) (w : World) : World :=
  mkWorld (Ole.moves msg Ole.Close (cursor w)) (pred (open_handles w))
          (trace w ++ [Ole.Close]).

(** The five fields in the order [convert] decodes them. *)
Definition after_fields (msg : Ole.OleFileIO) (w : World) : World :=
  after_field msg PATH_BODY
    (after_field msg PATH_SUBJECT
       (after_field msg PATH_TO
          (after_field msg PATH_SENDER_EMAIL
             (after_field msg PATH_SENDER_NAME w)))).

(** The text [convert] has assembled when it reaches the body. *)
Definition rendered_head (sender email : str) (to subject : option str) : str :=
  fold_left add_header
            [(lit "From", Some (((sender ++ lit " <") ++ email) ++ lit ">"));
             (lit "To", to); (lit "Subject", subject)]
            (lit "# Email Message" ++ NL ++ NL)
  ++ NL ++ lit "## Content" ++ NL ++ NL.

(** An event that looks a stream up or reads it. *)
Definition consults (path : str) (ev : Ole.event) : Prop :=
  ev = Ole.Exists path \/ ev = Ole.OpenStream path.

(** Plausibility of a text as HTML. *)
Definition spec_plausible (text : str) : bool :=
  let lowered := str_lower text in
  contains (lit "<html") lowered || contains (lit "<body") lowered
  || contains (lit "<head") lowered || contains (lit "<div") lowered.

(** The texts the HTML fallback tries, in order: all three decodes when the
    UTF-16LE decode succeeds, the ISO-8859-1 decode alone when it raised. *)
Definition spec_html_attempts (raw : bytes) : list str :=
  match decode_utf16le raw with
  | Ok text =>
      [spec_normalize text;
       spec_normalize (latin1_text raw);
       spec_normalize (utf8_discard_text raw)]
  | Raise _ => [spec_normalize (latin1_text raw)]
  end.

(** The first plausible attempt rendered, or the empty text. *)
Definition spec_html_fallback (raw : bytes) : str :=
  match find spec_plausible (spec_html_attempts raw) with
  | Some html => Markdownify html
  | None => []
  end.

(** The header lines of a rendered message. *)
Definition header_lines (headers : list (str * option str)) : str :=
  fold_left add_header headers [].

(** Whether [accepts] is settled by the declared extension or media type. *)
Definition declared_match (stream_info : StreamInfo) : bool :=
  mem (str_lower (or_empty (extension stream_info))) ACCEPTED_FILE_EXTENSIONS
  || existsb (startswith (str_lower (or_empty (mimetype stream_info))))
             ACCEPTED_MIME_TYPE_PREFIXES.

(** The text searched for the two markers. *)
Definition toc_of (entries : list (list str)) : str :=
  join NL (map str_of_entry entries).

(** Both markers occur in the joined directory listing. *)
Definition has_markers (entries : list (list str)) : bool :=
  contains (lit "__properties_version1.0") (toc_of entries)
  && contains (lit "__recip_version1.0_#00000000") (toc_of entries).

(** Container probing: the input is a container, opens as one, lists its
    directory, and the listing holds both markers; anything else, a failure
    included, is a rejection. *)
Definition spec_probe (file_stream : bytes) (pos : N) : bool :=
  match import_olefile with
  | None => false
  | Some ole =>
      fst (Ole.isOleFile ole file_stream pos)
      && match fst (Ole.new ole file_stream pos) with
         | Ok msg =>
             match Ole.listdir msg with
             | Ok entries => has_markers entries
             | Raise _ => false
             end
         | Raise _ => false
         end
  end.

(** One rendered header line; nothing for an absent or empty value. *)
Definition header_line (key : str) (value : option str) : str :=
  if truthy value
  then lit "**" ++ key ++ lit ":** " ++ or_empty value ++ NL
  else [].

(** The content section of a message whose container answers: the plain
    body when it is non-empty, else the HTML fallback of the HTML stream when
    that stream exists, else nothing. *)
Definition spec_content (msg : Ole.OleFileIO) : str :=
  if truthy (spec_decodeStream msg PATH_BODY)
  then or_empty (spec_decodeStream msg PATH_BODY)
  else
    match Ole.exists_ msg PATH_HTML, Ole.openstream_read msg PATH_HTML with
    | Ok true, Ok raw_data => spec_html_fallback raw_data
    | _, _ => []
    end.

(** The six stream paths of [convert]. *)
Definition convert_paths : list str :=
  [PATH_SENDER_NAME; PATH_SENDER_EMAIL; PATH_TO; PATH_SUBJECT; PATH_BODY;
   PATH_HTML].

(** The 16-bit units of a byte string, low byte first; a last odd byte is
    left out. *)
Fixpoint units16 (b : bytes) : str :=
  match b with
  | lo :: hi :: rest => unit16 lo hi :: units16 rest
  | _ => []
  end.

Definition is_ascii (b : bytes) : bool :=
  forallb (fun x => Byte.to_N x <? 0x80) b.

(** Bytes that are printable ASCII other than the space. *)
Definition is_graphic_ascii (b : bytes) : bool :=
  forallb (fun x => (0x21 <=? Byte.to_N x) && (Byte.to_N x <=? 0x7E)) b.


(** A computation whose outcome, and the cursor it leaves, depend on the
    world through the cursor alone. *)
Definition cursor_determined {A : Type} (m : M A) : Prop :=
  forall w1 w2 : World,
    cursor w1 = cursor w2 ->
    fst (m w1) = fst (m w2) /\ cursor (snd (m w1)) = cursor (snd (m w2)).

(** ** Properties of the built-ins *)

Lemma res_map_ok {A B} (f : A -> B) (r : res A) :
  (exists a, r = Ok a) -> exists b, res_map f r = Ok b.
Proof. intros [a ->]. now exists (f a). Qed.

(** With [errors="ignore"] the UTF-8 decoder has no way to raise. *)
Lemma decode_utf8_ignore_total_upto (n : nat) :
  forall b : bytes, (List.length b <= n)%nat ->
                    exists s, decode_utf8 Ignore b = Ok s.
Proof.
  induction n as [|n IH]; intros b Hlen.
  - destruct b; [now exists [] | simpl in Hlen; lia].
  - destruct b as [|b0 r1]; [now exists []|].
    assert (H1 : exists s, decode_utf8 Ignore r1 = Ok s)
      by (apply IH; simpl in Hlen; lia).
    cbn [decode_utf8 on_error].
    repeat match goal with
           | |- exists s, Ok _ = Ok s => eexists; reflexivity
           | |- exists s, res_map _ _ = Ok s => apply res_map_ok
           | |- exists s, decode_utf8 Ignore _ = Ok s =>
               first [ exact H1 | apply IH; simpl in Hlen |- *; lia ]
           | |- context [match ?l with [] => _ | _ :: _ => _ end] =>
               is_var l; destruct l
           | |- context [if ?c then _ else _] => destruct c
           end.
Qed.

Lemma decode_utf8_ignore_total (b : bytes) :
  exists s, decode_utf8 Ignore b = Ok s.
Proof. apply (decode_utf8_ignore_total_upto (List.length b)). lia. Qed.

Lemma decode_utf16le_raises (b : bytes) (e : exn) :
  decode_utf16le b = Raise e -> e = UnicodeDecodeError.
Proof.
  remember (List.length b) as n eqn:Hn.
  revert b Hn e. induction n as [n IH] using lt_wf_ind. intros b Hn e.
  destruct b as [|lo [|hi rest]]; cbn [decode_utf16le]; try congruence.
  assert (Hrec : forall r, (List.length r < n)%nat ->
                           forall e', res_map (A:=str) (B:=str) (cons (unit16 lo hi)) (decode_utf16le r) = Raise e' ->
                                      e' = UnicodeDecodeError).
  { intros r Hr e'. destruct (decode_utf16le r) eqn:E; cbn; [congruence|].
    intros [= <-]. eapply IH; eauto. }
  destruct (_ || _).
  - apply Hrec. subst n. simpl. lia.
  - destruct (_ <=? _); [|congruence].
    destruct rest as [|lo2 [|hi2 rest']]; try congruence.
    destruct (_ && _); [|congruence].
    destruct (decode_utf16le rest') eqn:E; cbn; [congruence|].
    intros [= <-]. eapply (IH (List.length rest')); eauto. subst n. simpl. lia.
Qed.

Lemma decode_utf8_strict_raises (b : bytes) (e : exn) :
  decode_utf8 Strict b = Raise e -> e = UnicodeDecodeError.
Proof.
  remember (List.length b) as n eqn:Hn.
  revert b Hn e. induction n as [n IH] using lt_wf_ind. intros b Hn e.
  assert (Hrec : forall (c : N) r, (List.length r < n)%nat ->
                   forall e', res_map (cons c) (decode_utf8 Strict r) = Raise e' ->
                              e' = UnicodeDecodeError).
  { intros c r Hr e'. destruct (decode_utf8 Strict r) eqn:E; cbn; [congruence|].
    intros [= <-]. eapply IH; eauto. }
  destruct b as [|b0 r1]; cbn [decode_utf8 on_error]; [congruence|].
  subst n.
  repeat match goal with
         | |- Raise _ = Raise _ -> _ => congruence
         | |- res_map _ _ = Raise _ -> _ => apply Hrec; simpl; lia
         | |- context [match ?l with [] => _ | _ :: _ => _ end] =>
             is_var l; destruct l
         | |- context [if ?c then _ else _] => destruct c
         end.
Qed.

(** The decode chain of the stream decoder always yields a text: the first
    decode of the three that succeeds, normalized. *)
Lemma decode_stream_data_spec (data : bytes) :
  decode_stream_data data = Ok (_strip_null_terminator (spec_first_decode data)).
Proof.
  unfold decode_stream_data, spec_first_decode, utf8_discard_text, try_except_decode.
  destruct (decode_utf16le data) as [t|e] eqn:E16; cbn; [reflexivity|].
  rewrite (decode_utf16le_raises _ _ E16); cbn.
  destruct (decode_utf8 Strict data) as [t|e'] eqn:E8; cbn; [reflexivity|].
  rewrite (decode_utf8_strict_raises _ _ E8); cbn.
  destruct (decode_utf8_ignore_total data) as [t ->]. reflexivity.
Qed.

(** *** Trimming *)

Lemma lstrip_head (s : str) (c : N) (t : str) :
  lstrip s = c :: t -> isspace c = false.
Proof.
  induction s as [|a s IH]; cbn [lstrip]; [discriminate|].
  destruct (isspace a) eqn:E; [exact IH|].
  intros [= <- _]. exact E.
Qed.

Lemma lstrip_fixed (c : N) (t : str) :
  isspace c = false -> lstrip (c :: t) = c :: t.
Proof. intros H. cbn [lstrip]. now rewrite H. Qed.

Lemma lstrip_suffix (s : str) :
  exists l, s = l ++ lstrip s /\ forallb isspace l = true.
Proof.
  induction s as [|a s [l [Hs Hl]]]; [now exists []|].
  cbn [lstrip]. destruct (isspace a) eqn:E.
  - exists (a :: l). cbn. rewrite E, Hl. split; [now f_equal | reflexivity].
  - now exists [].
Qed.

Lemma strip_last (s t : str) (c : N) :
  strip s = t ++ [c] -> isspace c = false.
Proof.
  unfold strip, rstrip. intros H.
  apply (f_equal (@rev N)) in H. rewrite rev_involutive, rev_app_distr in H.
  cbn in H. exact (lstrip_head _ _ _ H).
Qed.

Lemma strip_first (s t : str) (c : N) :
  strip s = c :: t -> isspace c = false.
Proof.
  unfold strip, rstrip. intros H.
  destruct (lstrip s) as [|a u] eqn:E; [discriminate|].
  pose proof (lstrip_head _ _ _ E) as Ha.
  destruct (lstrip_suffix (rev (a :: u))) as [l [Hl Hsp]].
  apply (f_equal (@rev N)) in H. rewrite rev_involutive in H.
  rewrite H in Hl. apply (f_equal (@rev N)) in Hl.
  rewrite rev_involutive, rev_app_distr, rev_involutive in Hl.
  cbn [app] in Hl. injection Hl as -> _. exact Ha.
Qed.

(** A text that begins and ends with something other than whitespace is
    left alone by [strip]. *)
Lemma strip_fixed (c d : N) (s : str) :
  isspace c = false -> isspace d = false ->
  strip (c :: s ++ [d]) = c :: s ++ [d].
Proof.
  intros Hc Hd. unfold strip, rstrip.
  rewrite (lstrip_fixed _ _ Hc).
  change (c :: s ++ [d]) with ((c :: s) ++ [d]).
  rewrite rev_app_distr. cbn [rev app].
  rewrite (lstrip_fixed _ _ Hd).
  change (d :: rev s ++ [c]) with ([d] ++ rev (c :: s)).
  rewrite rev_app_distr, rev_involutive. reflexivity.
Qed.

(** *** Normalization *)

Lemma strip_null_terminator_spec (text : str) :
  _strip_null_terminator text = spec_normalize text.
Proof.
  unfold _strip_null_terminator, spec_normalize, endswith, truthy.
  destruct text as [|c t _] using rev_ind; [reflexivity|].
  rewrite rev_app_distr. cbn [rev app].
  assert (Hne : exists a u, t ++ [c] = a :: u)
    by (destruct t; cbn; eauto).
  destruct Hne as [a [u Hne]].
  set (nonempty := match t ++ [c] with [] => false | _ :: _ => true end).
  assert (Hb : nonempty = true) by (subst nonempty; now rewrite Hne).
  rewrite Hb. clear nonempty Hb Hne.
  destruct c as [|p]; cbn [andb startswith N.eqb].
  - replace (startswith (rev t) []) with true by (now destruct (rev t)).
    now rewrite removelast_last, rev_involutive.
  - reflexivity.
Qed.

Lemma strip_null_terminator_null (text : str) :
  _strip_null_terminator (text ++ [0]) = strip text.
Proof.
  rewrite strip_null_terminator_spec. unfold spec_normalize.
  rewrite rev_app_distr. cbn. now rewrite rev_involutive.
Qed.

Lemma strip_null_terminator_other (text : str) (c : N) :
  c <> 0 -> _strip_null_terminator (text ++ [c]) = strip (text ++ [c]).
Proof.
  intros Hc. rewrite strip_null_terminator_spec. unfold spec_normalize.
  rewrite rev_app_distr. cbn. destruct c; [congruence | reflexivity].
Qed.

(** A normalized text keeps no whitespace at its end. *)
Lemma spec_normalize_last (text t : str) (c : N) :
  spec_normalize text = t ++ [c] -> isspace c = false.
Proof. unfold spec_normalize. apply strip_last. Qed.

(** ** The stream decoder *)

Lemma get_stream_data_run (ole : Ole.module) (msg : Ole.OleFileIO)
      (path : str) (w : World) :
  import_olefile = Some ole ->
  _get_stream_data msg path w =
    (Ok (spec_decodeStream msg path),
     mkWorld (field_cursor msg path (cursor w)) (open_handles w)
             (trace w ++ field_events msg path)).
Proof.
  intros Himp.
  unfold _get_stream_data, olefile, spec_decodeStream, field_cursor,
    field_events.
  rewrite Himp.
  unfold try_except, bind, msg_exists, msg_openstream_read, method, lift, ret.
  destruct (Ole.exists_ msg path) as [[|]|e]; cbn; try reflexivity.
  rewrite <- app_assoc. cbn [app].
  destruct (Ole.openstream_read msg path) as [data|e]; cbn; [|reflexivity].
  rewrite decode_stream_data_spec, strip_null_terminator_spec.
  reflexivity.
Qed.

(** ** The HTML fallback *)

Lemma is_valid_html_spec (content : str) :
  is_valid_html content = spec_plausible content.
Proof.
  unfold is_valid_html, spec_plausible. cbn [existsb].
  rewrite orb_false_r, !orb_assoc. reflexivity.
Qed.

(** The nested [try] blocks compute the first plausible attempt. *)
Lemma process_html_stream_run (raw_data : bytes) :
  _process_html_stream raw_data = Ok (spec_html_fallback raw_data).
Proof.
  unfold _process_html_stream, spec_html_fallback, spec_html_attempts,
    utf8_discard_text, latin1_text, decode_latin1, try_except_decode.
  destruct (decode_utf16le raw_data) as [t|e] eqn:E16; cbn [res_bind find].
  - rewrite !is_valid_html_spec, !strip_null_terminator_spec.
    destruct (spec_plausible (spec_normalize t)); [reflexivity|].
    destruct (spec_plausible (spec_normalize (map Byte.to_N raw_data)));
      [reflexivity|].
    destruct (decode_utf8_ignore_total raw_data) as [u ->]. cbn [res_bind].
    rewrite !is_valid_html_spec, !strip_null_terminator_spec.
    destruct (spec_plausible (spec_normalize u)); reflexivity.
  - rewrite (decode_utf16le_raises _ _ E16).
    cbn [is_UnicodeDecodeError res_bind find].
    rewrite !is_valid_html_spec, !strip_null_terminator_spec.
    destruct (spec_plausible (spec_normalize (map Byte.to_N raw_data)));
      reflexivity.
Qed.


(** *** The rendered text *)

Lemma fold_add_header (headers : list (str * option str)) (md_content : str) :
  fold_left add_header headers md_content
  = md_content ++ header_lines headers.
Proof.
  unfold header_lines. revert md_content.
  induction headers as [|[key value] headers IH]; intros md_content.
  - cbn. now rewrite app_nil_r.
  - cbn [fold_left]. rewrite IH, (IH (add_header [] (key, value))).
    rewrite app_assoc. f_equal.
    unfold add_header. destruct (truthy value); [reflexivity|].
    now rewrite app_nil_r.
Qed.

(** The assembled text begins with the [#] of its title line. *)
Lemma rendered_head_first (sender email : str) (to subject : option str) :
  exists rest, rendered_head sender email to subject = 0x23 :: rest.
Proof.
  unfold rendered_head. rewrite fold_add_header.
  eexists. reflexivity.
Qed.

(** Trimming the assembled text changes nothing when a non-empty normalized
    body ends it. *)
Lemma strip_rendered (sender email : str) (to subject : option str)
      (text body : str) :
  body = spec_normalize text -> body <> [] ->
  strip (rendered_head sender email to subject ++ body)
  = rendered_head sender email to subject ++ body.
Proof.
  intros Hbody Hne.
  destruct (rendered_head_first sender email to subject) as [rest ->].
  destruct (exists_last Hne) as [front [d Hd]].
  assert (Hsp : isspace d = false)
    by (eapply spec_normalize_last; rewrite <- Hbody; exact Hd).
  rewrite Hd. cbn [app]. rewrite app_assoc.
  apply strip_fixed; [reflexivity | exact Hsp].
Qed.

(** *** The container calls of a run *)

Lemma field_events_other (msg : Ole.OleFileIO) (path other : str) :
  path <> other ->
  Forall (fun ev => ~ consults other ev) (field_events msg path).
Proof.
  intros Hp. unfold field_events.
  assert (H1 : ~ consults other (Ole.Exists path))
    by (intros [[= E]|[= E]]; congruence).
  assert (H2 : ~ consults other (Ole.OpenStream path))
    by (intros [[= E]|[= E]]; congruence).
  destruct (Ole.exists_ msg path) as [[|]|e]; repeat constructor; assumption.
Qed.

Lemma spec_decodeStream_absent (msg : Ole.OleFileIO) (path : str) :
  spec_decodeStream msg path = None <-> stream_absent msg path.
Proof.
  unfold spec_decodeStream, stream_absent.
  destruct (Ole.exists_ msg path) as [[|]|e];
    [|split; [left; discriminate | reflexivity]..].
  destruct (Ole.openstream_read msg path) as [data|e]; split.
  - discriminate.
  - intros [H|[e [=]]]. now elim H.
  - right. now exists e.
  - reflexivity.
Qed.

(** ** Edge cases of the normalization and of the decode chains *)

Lemma isspace_forallb_rev (ws : str) :
  forallb isspace ws = true -> forallb isspace (rev ws) = true.
Proof.
  rewrite !forallb_forall. intros H x Hx. apply H. now apply in_rev.
Qed.

Lemma lstrip_spaces (ws s : str) :
  forallb isspace ws = true -> lstrip (ws ++ s) = lstrip s.
Proof.
  induction ws as [|a ws IH]; cbn [forallb app lstrip]; [reflexivity|].
  intros H. apply andb_prop in H as [Ha Hws]. rewrite Ha. now apply IH.
Qed.

Lemma lstrip_app_nonspace (s : str) (c : N) (t : str) :
  isspace c = false -> lstrip (s ++ c :: t) = lstrip s ++ c :: t.
Proof.
  intros Hc. induction s as [|a s IH]; cbn [app lstrip].
  - now rewrite Hc.
  - destruct (isspace a); [exact IH | reflexivity].
Qed.

Lemma rstrip_trailing (s : str) (d : N) (ws : str) :
  isspace d = false -> forallb isspace ws = true ->
  rstrip (s ++ [d] ++ ws) = s ++ [d].
Proof.
  intros Hd Hws. unfold rstrip.
  rewrite !rev_app_distr. cbn [rev app]. rewrite <- app_assoc.
  rewrite lstrip_spaces by now apply isspace_forallb_rev.
  cbn [app]. rewrite (lstrip_fixed _ _ Hd).
  cbn [rev]. now rewrite rev_involutive.
Qed.

(** A null that ends the text proper, with only whitespace after it, is
    what trimming leaves at the end. *)
Lemma strip_null_then_spaces (text ws : str) :
  forallb isspace ws = true ->
  strip (text ++ [0] ++ ws) = lstrip text ++ [0].
Proof.
  intros Hws. unfold strip. cbn [app].
  rewrite lstrip_app_nonspace by reflexivity.
  now apply (rstrip_trailing (lstrip text) 0 ws).
Qed.

(** X1.  [_strip_null_terminator] removes a null only when it is the very
    last character, and only one: a text that ends in two nulls keeps one of
    them, and so does a text whose null is followed by whitespace; in both
    cases the result ends with a null character. *)
Theorem strip_null_terminator_keeps_null (text ws : str) :
  (_strip_null_terminator (text ++ [0; 0]) = lstrip text ++ [0])
  /\ (ws <> [] -> forallb isspace ws = true ->
      _strip_null_terminator (text ++ [0] ++ ws) = lstrip text ++ [0]).
Proof.
  split.
  - change (text ++ [0; 0]) with (text ++ [0] ++ [0]).
    rewrite app_assoc, strip_null_terminator_null.
    rewrite <- (app_nil_r (text ++ [0])), <- app_assoc.
    now apply strip_null_then_spaces.
  - intros Hne Hws.
    destruct (exists_last Hne) as [front [c Hc]].
    assert (Hsp : isspace c = true).
    { rewrite forallb_forall in Hws. apply Hws. rewrite Hc.
      apply in_or_app. right. now left. }
    assert (Hc0 : c <> 0) by (intros ->; discriminate).
    rewrite <- strip_null_then_spaces with (ws := ws) by exact Hws.
    rewrite Hc, !app_assoc.
    apply (strip_null_terminator_other _ c Hc0).
Qed.

Lemma decode_utf16le_odd (b : bytes) :
  Nat.odd (List.length b) = true -> decode_utf16le b = Raise UnicodeDecodeError.
Proof.
  remember (List.length b) as n eqn:Hn.
  revert b Hn. induction n as [n IH] using lt_wf_ind. intros b Hn Hodd.
  destruct b as [|lo [|hi rest]]; [subst n; discriminate | reflexivity |].
  assert (Hrest : Nat.odd (List.length rest) = true)
    by (subst n; cbn [List.length] in Hodd;
        now rewrite Nat.odd_succ, Nat.even_succ in Hodd).
  cbn [decode_utf16le].
  destruct (_ || _).
  - rewrite (IH (List.length rest)); [reflexivity | subst n; cbn; lia
                                      | reflexivity | exact Hrest].
  - destruct (_ <=? _); [|reflexivity].
    destruct rest as [|lo2 [|hi2 rest']]; try reflexivity.
    destruct (_ && _); [|reflexivity].
    rewrite (IH (List.length rest')); [reflexivity | subst n; cbn; lia
                                       | reflexivity |].
    cbn [List.length] in Hrest.
    now rewrite Nat.odd_succ, Nat.even_succ in Hrest.
Qed.

Lemma decode_utf8_ascii (mode : errors) (b : bytes) :
  is_ascii b = true -> decode_utf8 mode b = Ok (map Byte.to_N b).
Proof.
  unfold is_ascii.
  induction b as [|x b IH]; cbn [forallb map decode_utf8]; [reflexivity|].
  intros H. apply andb_prop in H as [Hx Hb]. now rewrite Hx, (IH Hb).
Qed.

Lemma bytes_pair_ind (P : bytes -> Prop) :
  P [] -> (forall x, P [x]) -> (forall x y l, P l -> P (x :: y :: l)) ->
  forall l, P l.
Proof.
  intros H0 H1 H2. fix IH 1. intros [|x [|y l]]; [exact H0 | apply H1 |].
  apply H2, IH.
Qed.

Lemma decode_utf16le_ascii (b : bytes) :
  is_ascii b = true -> Nat.even (List.length b) = true ->
  decode_utf16le b = Ok (units16 b).
Proof.
  unfold is_ascii.
  induction b as [|x|lo hi rest IH] using bytes_pair_ind;
    [reflexivity | discriminate |].
  cbn [forallb List.length]. intros H Heven.
  apply andb_prop in H as [Hlo H]. apply andb_prop in H as [Hhi Hrest].
  rewrite Nat.even_succ, Nat.odd_succ in Heven.
  cbn [decode_utf16le units16].
  assert (Hu : (unit16 lo hi <? 0xD800) = true).
  { apply N.ltb_lt in Hlo, Hhi. apply N.ltb_lt. unfold unit16. lia. }
  rewrite Hu. cbn [orb]. now rewrite (IH Hrest Heven).
Qed.

Lemma units16_length (b : bytes) :
  Nat.even (List.length b) = true ->
  (2 * List.length (units16 b) = List.length b)%nat.
Proof.
  induction b as [|x|lo hi rest IH] using bytes_pair_ind;
    [reflexivity | discriminate |].
  cbn [List.length units16]. rewrite Nat.even_succ, Nat.odd_succ.
  intros H. specialize (IH H). lia.
Qed.

(** X2.  A stream of odd length is never read as UTF-16LE: the stream
    decoder gives the normalized UTF-8 reading of it (strict when the bytes
    are valid UTF-8, with the invalid sequences discarded otherwise), so an
    ASCII stream of odd length comes out as its ASCII text. *)
Theorem decode_stream_data_odd (data : bytes) :
  Nat.odd (List.length data) = true ->
  decode_stream_data data
  = Ok (_strip_null_terminator
          match decode_utf8 Strict data with
          | Ok text => text
          | Raise _ => utf8_discard_text data
          end)
  /\ (is_ascii data = true ->
      decode_stream_data data
      = Ok (_strip_null_terminator (map Byte.to_N data))).
Proof.
  intros Hodd. rewrite decode_stream_data_spec. unfold spec_first_decode.
  rewrite (decode_utf16le_odd data Hodd). split; [reflexivity|].
  intros Hascii. now rewrite (decode_utf8_ascii Strict data Hascii).
Qed.

Lemma isspace_above (x : N) :
  0x2121 <= x -> x <> 0x3000 -> isspace x = false.
Proof.
  intros Hx H3. unfold isspace.
  rewrite (proj2 (N.leb_gt x 0x0D)), (proj2 (N.leb_gt x 0x20)),
    (proj2 (N.leb_gt x 0x200A)) by lia.
  rewrite (proj2 (N.eqb_neq x 0x85)), (proj2 (N.eqb_neq x 0xA0)),
    (proj2 (N.eqb_neq x 0x1680)), (proj2 (N.eqb_neq x 0x2028)),
    (proj2 (N.eqb_neq x 0x2029)), (proj2 (N.eqb_neq x 0x202F)),
    (proj2 (N.eqb_neq x 0x205F)), (proj2 (N.eqb_neq x 0x3000)) by lia.
  now rewrite !andb_false_r.
Qed.

Lemma strip_solid (s : str) :
  Forall (fun x => isspace x = false) s -> strip s = s.
Proof.
  intros Hall.
  assert (Hl : forall t, Forall (fun x => isspace x = false) t -> lstrip t = t).
  { intros [|x t] Ht; [reflexivity|]. inversion Ht; subst.
    now apply lstrip_fixed. }
  unfold strip, rstrip. rewrite (Hl s Hall).
  rewrite (Hl (rev s)) by now apply Forall_rev.
  apply rev_involutive.
Qed.

Lemma strip_null_terminator_solid (s : str) :
  Forall (fun x => isspace x = false) s -> Forall (fun x => x <> 0) s ->
  _strip_null_terminator s = s.
Proof.
  intros Hsp Hnz. rewrite strip_null_terminator_spec. unfold spec_normalize.
  destruct (rev s) as [|x front] eqn:Hrev; [now apply strip_solid|].
  assert (Hx : x <> 0).
  { rewrite Forall_forall in Hnz. apply Hnz, in_rev. rewrite Hrev. now left. }
  destruct x; [now elim Hx | now apply strip_solid].
Qed.

Lemma units16_graphic (b : bytes) :
  is_graphic_ascii b = true ->
  Forall (fun x => 0x2121 <= x /\ x <> 0x3000) (units16 b).
Proof.
  unfold is_graphic_ascii.
  induction b as [|x|lo hi rest IH] using bytes_pair_ind;
    [constructor | constructor |].
  cbn [forallb units16]. intros H.
  apply andb_prop in H as [Hlo H]. apply andb_prop in H as [Hhi Hrest].
  apply andb_prop in Hlo as [Hlo1 Hlo2]. apply andb_prop in Hhi as [Hhi1 Hhi2].
  apply N.leb_le in Hlo1, Hlo2, Hhi1, Hhi2.
  constructor; [unfold unit16; lia | now apply IH].
Qed.

Lemma is_graphic_is_ascii (b : bytes) :
  is_graphic_ascii b = true -> is_ascii b = true.
Proof.
  unfold is_graphic_ascii, is_ascii. rewrite !forallb_forall.
  intros H x Hx. specialize (H x Hx). apply andb_prop in H as [_ H].
  apply N.leb_le in H. apply N.ltb_lt. lia.
Qed.

(** X3.  UTF-16LE comes first whatever the bytes are: an ASCII stream of
    even length decodes without error as UTF-16LE, so the stream decoder
    returns the normalization of its bytes paired into 16-bit code units and
    its UTF-8 reading plays no part.  When the bytes are printable ASCII
    other than the space and the stream is not empty, the result is exactly
    those units, half as many characters as bytes and none of them ASCII,
    and so it is not the ASCII text of the stream. *)
Theorem decode_stream_data_even_ascii (data : bytes) :
  is_ascii data = true -> Nat.even (List.length data) = true ->
  decode_stream_data data = Ok (_strip_null_terminator (units16 data))
  /\ (is_graphic_ascii data = true -> data <> [] ->
      decode_stream_data data = Ok (units16 data)
      /\ (2 * List.length (units16 data) = List.length data)%nat
      /\ Forall (fun x => 0x80 <= x) (units16 data)
      /\ decode_stream_data data
         <> Ok (_strip_null_terminator (map Byte.to_N data))).
Proof.
  intros Hascii Heven.
  assert (Hrun : decode_stream_data data
                 = Ok (_strip_null_terminator (units16 data))).
  { rewrite decode_stream_data_spec. unfold spec_first_decode.
    now rewrite (decode_utf16le_ascii data Hascii Heven). }
  split; [exact Hrun|]. intros Hgraphic Hne.
  pose proof (units16_graphic data Hgraphic) as Hunits.
  pose proof (units16_length data Heven) as Hlen.
  assert (Hsolid : _strip_null_terminator (units16 data) = units16 data).
  { apply strip_null_terminator_solid.
    - eapply Forall_impl; [|exact Hunits]. intros x [Hx H3].
      now apply isspace_above.
    - eapply Forall_impl; [|exact Hunits]. intros x [Hx _]. lia. }
  rewrite Hrun, Hsolid. split; [reflexivity|]. split; [exact Hlen|]. split.
  - eapply Forall_impl; [|exact Hunits]. intros x [Hx _]. lia.
  - intros [= Heq].
    assert (Htext : _strip_null_terminator (map Byte.to_N data)
                    = map Byte.to_N data).
    { unfold is_graphic_ascii in Hgraphic. rewrite forallb_forall in Hgraphic.
      apply strip_null_terminator_solid; apply Forall_forall;
        intros x Hx; apply in_map_iff in Hx as [y [<- Hy]];
        specialize (Hgraphic y Hy); apply andb_prop in Hgraphic as [H1 H2];
        apply N.leb_le in H1, H2.
      - unfold isspace.
        rewrite (proj2 (N.leb_gt _ 0x0D)), (proj2 (N.leb_gt _ 0x20)) by lia.
        rewrite (proj2 (N.leb_gt 0x2000 _)) by lia.
        rewrite (proj2 (N.eqb_neq _ 0x85)), (proj2 (N.eqb_neq _ 0xA0)),
          (proj2 (N.eqb_neq _ 0x1680)), (proj2 (N.eqb_neq _ 0x2028)),
          (proj2 (N.eqb_neq _ 0x2029)), (proj2 (N.eqb_neq _ 0x202F)),
          (proj2 (N.eqb_neq _ 0x205F)), (proj2 (N.eqb_neq _ 0x3000)) by lia.
        now rewrite !andb_false_r.
      - lia. }
    rewrite Htext in Heq. apply (f_equal (@List.length N)) in Heq.
    rewrite length_map in Heq.
    destruct data; [now elim Hne | cbn [List.length] in *; lia].
Qed.

(** X4.  For an HTML stream of odd length only the ISO-8859-1 reading
    counts: the UTF-16LE decode raises, the UTF-8 attempt is not made, and
    the result is the rendering of the normalized ISO-8859-1 text when that
    is plausible and the empty text otherwise. *)
Theorem process_html_stream_odd (raw_data : bytes) :
  Nat.odd (List.length raw_data) = true ->
  _process_html_stream raw_data
  = Ok (if is_valid_html (_strip_null_terminator (latin1_text raw_data))
        then Markdownify (_strip_null_terminator (latin1_text raw_data))
        else []).
Proof.
  intros Hodd. rewrite process_html_stream_run.
  unfold spec_html_fallback, spec_html_attempts.
  rewrite (decode_utf16le_odd raw_data Hodd). cbn [find].
  rewrite is_valid_html_spec, strip_null_terminator_spec.
  now destruct (spec_plausible (spec_normalize (latin1_text raw_data))).
Qed.

(** *** Substring tests *)

Lemma startswith_spec (s prefix : str) :
  startswith s prefix = true <-> exists rest, s = prefix ++ rest.
Proof.
  revert s. induction prefix as [|p prefix IH]; intros s.
  - split; [intros _; now exists s | intros _; now destruct s].
  - destruct s as [|c s]; cbn [startswith].
    + split; [discriminate | intros [rest [=]]].
    + rewrite andb_true_iff, N.eqb_eq, IH. split.
      * intros [-> [rest ->]]. now exists rest.
      * intros [rest [= -> ->]]. split; [reflexivity | now exists rest].
Qed.

Lemma contains_spec (needle hay : str) :
  contains needle hay = true <->
  exists before after, hay = before ++ needle ++ after.
Proof.
  induction hay as [|c hay IH].
  - cbn [contains]. rewrite orb_false_r, startswith_spec. split.
    + intros [rest H]. now exists [], rest.
    + intros [before [after H]].
      destruct before; [now exists after|discriminate].
  - cbn [contains]. rewrite orb_true_iff, startswith_spec, IH. split.
    + intros [[rest H]|[before [after H]]].
      * now exists [], rest.
      * exists (c :: before), after. cbn. now rewrite H.
    + intros [before [after H]]. destruct before as [|b before].
      * left. now exists after.
      * right. injection H as -> H. now exists before, after.
Qed.


Lemma spec_normalize_blank (text : str) :
  forallb isspace text = true -> spec_normalize text = [].
Proof.
  intros Hws. unfold spec_normalize.
  assert (Hstrip : strip text = []).
  { unfold strip. rewrite <- (app_nil_r text), lstrip_spaces by exact Hws.
    reflexivity. }
  destruct (rev text) as [|x front] eqn:Hrev; [exact Hstrip|].
  destruct x; [|exact Hstrip].
  assert (Hin : In 0 text) by (apply in_rev; rewrite Hrev; now left).
  rewrite forallb_forall in Hws. specialize (Hws 0 Hin). discriminate.
Qed.

(** X14.  Only a text that passed the plausibility test is ever rendered:
    the result of the HTML-stream processor is the empty text or the
    rendering of a normalized decode of the stream in which a marker
    occurs. *)
Theorem process_html_stream_only_plausible (raw_data : bytes) (text : str) :
  _process_html_stream raw_data = Ok text ->
  text = []
  \/ exists html,
       In html (spec_html_attempts raw_data)
       /\ is_valid_html html = true
       /\ text = Markdownify html.
Proof.
  rewrite process_html_stream_run. unfold spec_html_fallback.
  intros [= <-].
  destruct (find spec_plausible (spec_html_attempts raw_data)) as [html|] eqn:H;
    [|now left].
  right. exists html. apply find_some in H as [Hin Hp].
  rewrite is_valid_html_spec. repeat split; assumption.
Qed.

(** ** [convert], step by step *)

Lemma bind_run {A B} (m : M A) (k : A -> M B) (w : World) :
  bind m k w =
    match m w with
    | (Ok a, w') => k a w'
    | (Raise e, w') => (Raise e, w')
    end.
Proof. reflexivity. Qed.

Lemma dict_get_subject (a b c : option str) :
  dict_get [(lit "From", a); (lit "To", b); (lit "Subject", c)] (lit "Subject")
  = c.
Proof. reflexivity. Qed.

Section Opened.

Variables (ole : Ole.module) (msg : Ole.OleFileIO) (c : N).
Variables (file_stream : bytes) (stream_info : StreamInfo) (kwargs : Kwargs).
Variable w : World.
Hypothesis Himp : import_olefile = Some ole.
Hypothesis Hnew : Ole.new ole file_stream (cursor w) = (Ok msg, c).

Ltac open_container :=
  unfold convert, _dependency_exc_info, olefile; rewrite Himp;
  rewrite bind_run; unfold call_OleFileIO at 1; rewrite Hnew;
  fold (after_open c w).

Ltac field :=
  rewrite bind_run, (get_stream_data_run ole) by exact Himp;
  match goal with
  | |- context [mkWorld (field_cursor msg ?p (cursor ?v)) _ _] =>
      fold (after_field msg p v)
  end.

Lemma convert_sender_absent :
  spec_decodeStream msg PATH_SENDER_NAME = None ->
  convert file_stream stream_info kwargs w =
    (Raise TypeError, after_field msg PATH_SENDER_NAME (after_open c w)).
Proof.
  intros Hname. open_container. field. rewrite Hname. reflexivity.
Qed.

Lemma convert_email_absent (sender : str) :
  spec_decodeStream msg PATH_SENDER_NAME = Some sender ->
  spec_decodeStream msg PATH_SENDER_EMAIL = None ->
  convert file_stream stream_info kwargs w =
    (Raise TypeError,
     after_field msg PATH_SENDER_EMAIL
       (after_field msg PATH_SENDER_NAME (after_open c w))).
Proof.
  intros Hname Hemail. open_container. field. rewrite Hname.
  rewrite bind_run. unfold lift at 1, add at 1.
  field. rewrite Hemail. reflexivity.
Qed.

Lemma convert_plain_body (sender email : str) :
  spec_decodeStream msg PATH_SENDER_NAME = Some sender ->
  spec_decodeStream msg PATH_SENDER_EMAIL = Some email ->
  truthy (spec_decodeStream msg PATH_BODY) = true ->
  convert file_stream stream_info kwargs w =
    (Ok {| markdown :=
             strip (rendered_head sender email
                                  (spec_decodeStream msg PATH_TO)
                                  (spec_decodeStream msg PATH_SUBJECT)
                    ++ or_empty (spec_decodeStream msg PATH_BODY));
           title := spec_decodeStream msg PATH_SUBJECT |},
     after_close msg (after_fields msg (after_open c w))).
Proof.
  intros Hname Hemail Hbody. open_container. field. rewrite Hname.
  rewrite bind_run. unfold lift at 1, add at 1.
  field. rewrite Hemail.
  do 2 (rewrite bind_run; unfold lift at 1, add at 1).
  do 3 field. rewrite Hbody, dict_get_subject.
  reflexivity.
Qed.

Lemma convert_html_body (sender email : str) :
  spec_decodeStream msg PATH_SENDER_NAME = Some sender ->
  spec_decodeStream msg PATH_SENDER_EMAIL = Some email ->
  truthy (spec_decodeStream msg PATH_BODY) = false ->
  let head := rendered_head sender email (spec_decodeStream msg PATH_TO)
                            (spec_decodeStream msg PATH_SUBJECT) in
  let subject := spec_decodeStream msg PATH_SUBJECT in
  let w5 := after_fields msg (after_open c w) in
  let w6 := after_call msg (Ole.Exists PATH_HTML) w5 in
  let w7 := after_call msg (Ole.OpenStream PATH_HTML) w6 in
  convert file_stream stream_info kwargs w =
    match Ole.exists_ msg PATH_HTML with
    | Raise e => (Raise e, w6)
    | Ok false =>
        (Ok {| markdown := strip head; title := subject |}, after_close msg w6)
    | Ok true =>
        match Ole.openstream_read msg PATH_HTML with
        | Raise e => (Raise e, w7)
        | Ok raw_data =>
            (Ok {| markdown := strip (head ++ spec_html_fallback raw_data);
                   title := subject |},
             after_close msg w7)
        end
    end.
Proof.
  intros Hname Hemail Hbody. open_container. field. rewrite Hname.
  rewrite bind_run. unfold lift at 1, add at 1.
  field. rewrite Hemail.
  do 2 (rewrite bind_run; unfold lift at 1, add at 1).
  do 3 field. rewrite Hbody, dict_get_subject.
  fold (after_fields msg (after_open c w)).
  fold (rendered_head sender email (spec_decodeStream msg PATH_TO)
                      (spec_decodeStream msg PATH_SUBJECT)).
  cbv zeta.
  rewrite !bind_run. unfold msg_exists at 1, method at 1.
  fold (after_call msg (Ole.Exists PATH_HTML) (after_fields msg (after_open c w))).
  destruct (Ole.exists_ msg PATH_HTML) as [[|]|e]; [|reflexivity|reflexivity].
  rewrite !bind_run. unfold msg_openstream_read at 1, method at 1.
  fold (after_call msg (Ole.OpenStream PATH_HTML)
          (after_call msg (Ole.Exists PATH_HTML)
             (after_fields msg (after_open c w)))).
  destruct (Ole.openstream_read msg PATH_HTML) as [raw|e]; [|reflexivity].
  rewrite bind_run. unfold lift at 1. rewrite process_html_stream_run.
  destruct (spec_html_fallback raw) as [|x html]; cbn [truthy andb].
  - rewrite app_nil_r. reflexivity.
  - reflexivity.
Qed.

(** C1 (where the code departs from it).  The From header is the
    concatenation [name + " <" + address + ">"] of two decoded fields, and
    the field of a stream that is missing or cannot be read is [None], not
    the empty string: whenever the display-name stream or the address stream
    is absent, the concatenation raises [TypeError] and [convert] raises
    with it. *)
Theorem convert_absent_from_half_raises :
  stream_absent msg PATH_SENDER_NAME \/ stream_absent msg PATH_SENDER_EMAIL ->
  fst (convert file_stream stream_info kwargs w) = Raise TypeError.
Proof.
  rewrite <- !spec_decodeStream_absent. intros Habsent.
  destruct (spec_decodeStream msg PATH_SENDER_NAME) as [sender|] eqn:Hname.
  - destruct Habsent as [|Hemail]; [discriminate|].
    now rewrite (convert_email_absent sender Hname Hemail).
  - now rewrite (convert_sender_absent Hname).
Qed.

(** C2 (where the code departs from it).  Once the container is open,
    [convert] closes it exactly on the paths that return a result; on every
    path that raises, the handle opened by the call is still open when
    [convert] exits. *)
Theorem convert_closes_only_on_return :
  let run := convert file_stream stream_info kwargs w in
  (forall r, fst run = Ok r -> open_handles (snd run) = open_handles w)
  /\ (forall e, fst run = Raise e ->
                open_handles (snd run) = S (open_handles w)).
Proof.
  cbv zeta.
  destruct (spec_decodeStream msg PATH_SENDER_NAME) as [sender|] eqn:Hname;
    [|rewrite (convert_sender_absent Hname); split; [discriminate | reflexivity]].
  destruct (spec_decodeStream msg PATH_SENDER_EMAIL) as [email|] eqn:Hemail;
    [|rewrite (convert_email_absent sender Hname Hemail);
      split; [discriminate | reflexivity]].
  destruct (truthy (spec_decodeStream msg PATH_BODY)) eqn:Hbody.
  - rewrite (convert_plain_body sender email Hname Hemail Hbody).
    split; [reflexivity | discriminate].
  - rewrite (convert_html_body sender email Hname Hemail Hbody).
    destruct (Ole.exists_ msg PATH_HTML) as [[|]|e];
      [destruct (Ole.openstream_read msg PATH_HTML)|..];
      split; first [reflexivity | discriminate].
Qed.

(** C3.  When the plain-text body decodes to a non-empty value, no call of
    the run looks up or reads the HTML body stream, a run that returns has
    the assembled head followed by that value, unchanged, as its text, and
    the run does return whenever both halves of the From header decode; so
    a run that touches the HTML stream had an absent or empty plain body. *)
Theorem convert_prefers_plain_body :
  let run := convert file_stream stream_info kwargs w in
  exists events,
    trace (snd run) = trace w ++ events
    /\ (forall body,
          spec_decodeStream msg PATH_BODY = Some body -> body <> [] ->
          Forall (fun ev => ~ consults PATH_HTML ev) events
          /\ (forall r, fst run = Ok r ->
                        exists sender email,
                          spec_decodeStream msg PATH_SENDER_NAME = Some sender
                          /\ spec_decodeStream msg PATH_SENDER_EMAIL = Some email
                          /\ markdown r =
                               rendered_head sender email
                                 (spec_decodeStream msg PATH_TO)
                                 (spec_decodeStream msg PATH_SUBJECT)
                               ++ body)
          /\ (forall sender email,
                 spec_decodeStream msg PATH_SENDER_NAME = Some sender ->
                 spec_decodeStream msg PATH_SENDER_EMAIL = Some email ->
                 exists r, fst run = Ok r))
    /\ (Exists (consults PATH_HTML) events ->
         spec_decodeStream msg PATH_BODY = None
         \/ spec_decodeStream msg PATH_BODY = Some []).
Proof.
  cbv zeta.
  assert (Hother : forall p, p <> PATH_HTML ->
            Forall (fun ev => ~ consults PATH_HTML ev) (field_events msg p))
    by (intros p Hp; now apply field_events_other).
  assert (Hopen : Forall (fun ev => ~ consults PATH_HTML ev) [Ole.Open])
    by (repeat constructor; intros [|]; discriminate).
  assert (Hclose : Forall (fun ev => ~ consults PATH_HTML ev) [Ole.Close])
    by (repeat constructor; intros [|]; discriminate).
  assert (Hno : forall events,
            Forall (fun ev => ~ consults PATH_HTML ev) events ->
            Exists (consults PATH_HTML) events -> False).
  { intros events Hall Hex. apply Exists_exists in Hex as [ev [Hin Hev]].
    rewrite Forall_forall in Hall. exact (Hall ev Hin Hev). }
  destruct (spec_decodeStream msg PATH_SENDER_NAME) as [sender|] eqn:Hname.
  2:{ rewrite (convert_sender_absent Hname).
      cbn [snd fst trace after_field after_open]. rewrite <- !app_assoc.
      assert (Hall : Forall (fun ev => ~ consults PATH_HTML ev)
                            ([Ole.Open] ++ field_events msg PATH_SENDER_NAME))
        by (repeat (apply Forall_app; split); auto; apply Hother; discriminate).
      eexists; split; [reflexivity|]. split.
      - intros body Hbody Hne. split; [exact Hall|].
        split; [discriminate | intros ? ? [=]].
      - intros Hex. elim (Hno _ Hall Hex). }
  destruct (spec_decodeStream msg PATH_SENDER_EMAIL) as [email|] eqn:Hemail.
  2:{ rewrite (convert_email_absent sender Hname Hemail).
      cbn [snd fst trace after_field after_open]. rewrite <- !app_assoc.
      assert (Hall : Forall (fun ev => ~ consults PATH_HTML ev)
                            ([Ole.Open] ++ field_events msg PATH_SENDER_NAME
                             ++ field_events msg PATH_SENDER_EMAIL))
        by (repeat (apply Forall_app; split); auto; apply Hother; discriminate).
      eexists; split; [reflexivity|]. split.
      - intros body Hbody Hne. split; [exact Hall|].
        split; [discriminate | intros ? ? _ [=]].
      - intros Hex. elim (Hno _ Hall Hex). }
  destruct (truthy (spec_decodeStream msg PATH_BODY)) eqn:Htruthy.
  - rewrite (convert_plain_body sender email Hname Hemail Htruthy).
    cbn [snd fst trace after_field after_fields after_open after_close].
    rewrite <- !app_assoc.
    assert (Hall : Forall (fun ev => ~ consults PATH_HTML ev)
                     ([Ole.Open] ++ field_events msg PATH_SENDER_NAME
                      ++ field_events msg PATH_SENDER_EMAIL
                      ++ field_events msg PATH_TO
                      ++ field_events msg PATH_SUBJECT
                      ++ field_events msg PATH_BODY ++ [Ole.Close]))
      by (repeat (apply Forall_app; split); auto; apply Hother; discriminate).
    eexists; split; [reflexivity|]. split.
    + intros body Hbody Hne. split; [exact Hall|]. split.
      * intros r [= <-]. exists sender, email. repeat split.
        cbn [markdown]. rewrite Hbody.
        assert (Hor : or_empty (Some body) = body) by (now destruct body).
        rewrite Hor.
        unfold spec_decodeStream in Hbody.
        destruct (Ole.exists_ msg PATH_BODY) as [[|]|]; try discriminate.
        destruct (Ole.openstream_read msg PATH_BODY) as [data|];
          try discriminate.
        injection Hbody as Hbody.
        now apply (strip_rendered _ _ _ _ (spec_first_decode data)).
      * intros ? ? _ _. eexists. reflexivity.
    + intros Hex. elim (Hno _ Hall Hex).
  - exists (skipn (List.length (trace w))
                  (trace (snd (convert file_stream stream_info kwargs w)))).
    assert (Hbody : spec_decodeStream msg PATH_BODY = None
                    \/ spec_decodeStream msg PATH_BODY = Some [])
      by (destruct (spec_decodeStream msg PATH_BODY) as [[|]|];
          [now right | discriminate | now left]).
    split; [|split].
    + rewrite (convert_html_body sender email Hname Hemail Htruthy).
      assert (Hskip : forall rest, trace w ++ rest
                = trace w ++ skipn (List.length (trace w)) (trace w ++ rest)).
      { intros rest. f_equal. rewrite skipn_app, skipn_all, Nat.sub_diag.
        reflexivity. }
      destruct (Ole.exists_ msg PATH_HTML) as [[|]|e];
        [destruct (Ole.openstream_read msg PATH_HTML)|..];
        cbn [snd fst trace after_field after_fields after_open after_close
               after_call];
        rewrite <- !app_assoc; apply Hskip.
    + intros body Hsome Hne. destruct Hbody as [Hb|Hb]; rewrite Hb in Hsome.
      * discriminate.
      * injection Hsome as <-. now elim Hne.
    + intros _. exact Hbody.
Qed.

(** *** The shape of a run *)

Lemma or_empty_some (x : str) : or_empty (Some x) = x.
Proof. now destruct x. Qed.

Lemma truthy_app_cons (a : str) (x : N) (b : str) :
  truthy (Some (a ++ x :: b)) = true.
Proof. now destruct a. Qed.

Lemma add_header_line (md_content key : str) (value : option str) :
  add_header md_content (key, value) = md_content ++ header_line key value.
Proof.
  unfold add_header, header_line.
  destruct (truthy value); [reflexivity | now rewrite app_nil_r].
Qed.

Lemma rendered_head_layout (sender email : str) (to subject : option str) :
  rendered_head sender email to subject
  = lit "# Email Message" ++ NL ++ NL
    ++ lit "**From:** " ++ sender ++ lit " <" ++ email ++ lit ">" ++ NL
    ++ header_line (lit "To") to
    ++ header_line (lit "Subject") subject
    ++ NL ++ lit "## Content" ++ NL ++ NL.
Proof.
  unfold rendered_head. cbn [fold_left]. rewrite !add_header_line.
  unfold header_line at 1.
  change (lit ">") with [62]. rewrite truthy_app_cons, or_empty_some.
  rewrite <- !app_assoc. reflexivity.
Qed.

Lemma convert_returns_shape (r : DocumentConverterResult) :
  fst (convert file_stream stream_info kwargs w) = Ok r ->
  exists sender email,
    spec_decodeStream msg PATH_SENDER_NAME = Some sender
    /\ spec_decodeStream msg PATH_SENDER_EMAIL = Some email
    /\ markdown r =
       strip (rendered_head sender email (spec_decodeStream msg PATH_TO)
                            (spec_decodeStream msg PATH_SUBJECT)
              ++ spec_content msg)
    /\ title r = spec_decodeStream msg PATH_SUBJECT.
Proof.
  destruct (spec_decodeStream msg PATH_SENDER_NAME) as [sender|] eqn:Hname;
    [|rewrite (convert_sender_absent Hname); discriminate].
  destruct (spec_decodeStream msg PATH_SENDER_EMAIL) as [email|] eqn:Hemail;
    [|rewrite (convert_email_absent sender Hname Hemail); discriminate].
  unfold spec_content.
  destruct (truthy (spec_decodeStream msg PATH_BODY)) eqn:Hbody.
  - rewrite (convert_plain_body sender email Hname Hemail Hbody).
    intros [= <-]. exists sender, email. repeat split.
  - rewrite (convert_html_body sender email Hname Hemail Hbody).
    destruct (Ole.exists_ msg PATH_HTML) as [[|]|e];
      [destruct (Ole.openstream_read msg PATH_HTML)|..];
      cbn [fst]; try discriminate;
      intros [= <-]; exists sender, email; cbn [markdown title];
      rewrite ?app_nil_r; repeat split.
Qed.

Lemma field_events_consults (path : str) :
  In path convert_paths ->
  Forall (fun ev => exists p, In p convert_paths /\ consults p ev)
         (field_events msg path).
Proof using Type.
  intros Hin. unfold field_events.
  destruct (Ole.exists_ msg path) as [[|]|e]; repeat constructor;
    exists path; (split; [exact Hin|]); unfold consults; auto.
Qed.

Ltac in_paths :=
  unfold convert_paths; repeat first [left; reflexivity | right].

Lemma convert_trace_shape :
  exists middle,
    trace (snd (convert file_stream stream_info kwargs w))
    = trace w ++ [Ole.Open] ++ middle
      ++ match fst (convert file_stream stream_info kwargs w) with
         | Ok _ => [Ole.Close]
         | Raise _ => []
         end
    /\ Forall (fun ev => exists p, In p convert_paths /\ consults p ev) middle.
Proof using Himp Hnew.
  assert (Hf : forall path, In path convert_paths ->
            Forall (fun ev => exists p, In p convert_paths /\ consults p ev)
                   (field_events msg path))
    by exact field_events_consults.
  assert (He : Forall (fun ev => exists p, In p convert_paths /\ consults p ev)
                      [Ole.Exists PATH_HTML]).
  { repeat constructor. exists PATH_HTML. split; [in_paths | now left]. }
  assert (Ho : Forall (fun ev => exists p, In p convert_paths /\ consults p ev)
                      [Ole.OpenStream PATH_HTML]).
  { repeat constructor. exists PATH_HTML. split; [in_paths | now right]. }
  pose (fields := field_events msg PATH_SENDER_NAME
                  ++ field_events msg PATH_SENDER_EMAIL
                  ++ field_events msg PATH_TO
                  ++ field_events msg PATH_SUBJECT
                  ++ field_events msg PATH_BODY).
  assert (Hfields : Forall (fun ev => exists p, In p convert_paths
                                                /\ consults p ev) fields).
  { unfold fields. repeat (apply Forall_app; split); apply Hf; in_paths. }
  destruct (spec_decodeStream msg PATH_SENDER_NAME) as [sender|] eqn:Hname.
  2:{ rewrite (convert_sender_absent Hname).
      exists (field_events msg PATH_SENDER_NAME). split.
      - cbn [snd fst trace after_field after_open].
        rewrite <- ?app_assoc, app_nil_r. reflexivity.
      - apply Hf. in_paths. }
  destruct (spec_decodeStream msg PATH_SENDER_EMAIL) as [email|] eqn:Hemail.
  2:{ rewrite (convert_email_absent sender Hname Hemail).
      exists (field_events msg PATH_SENDER_NAME
              ++ field_events msg PATH_SENDER_EMAIL). split.
      - cbn [snd fst trace after_field after_open].
        rewrite <- ?app_assoc, app_nil_r. reflexivity.
      - apply Forall_app; split; apply Hf; in_paths. }
  destruct (truthy (spec_decodeStream msg PATH_BODY)) eqn:Hbody.
  - rewrite (convert_plain_body sender email Hname Hemail Hbody).
    exists fields. split; [|exact Hfields].
    unfold fields.
    cbn [snd fst trace after_field after_fields after_open after_close].
    rewrite <- ?app_assoc. reflexivity.
  - rewrite (convert_html_body sender email Hname Hemail Hbody).
    destruct (Ole.exists_ msg PATH_HTML) as [[|]|e];
      [destruct (Ole.openstream_read msg PATH_HTML)|..].
    + exists (fields ++ [Ole.Exists PATH_HTML] ++ [Ole.OpenStream PATH_HTML]).
      split; [|apply Forall_app; split; [exact Hfields|];
               apply Forall_app; split; assumption].
      unfold fields.
      cbn [snd fst trace after_field after_fields after_open after_close
             after_call].
      rewrite <- ?app_assoc. reflexivity.
    + exists (fields ++ [Ole.Exists PATH_HTML] ++ [Ole.OpenStream PATH_HTML]).
      split; [|apply Forall_app; split; [exact Hfields|];
               apply Forall_app; split; assumption].
      unfold fields.
      cbn [snd fst trace after_field after_fields after_open after_close
             after_call].
      rewrite <- ?app_assoc, app_nil_r. reflexivity.
    + exists (fields ++ [Ole.Exists PATH_HTML]).
      split; [|apply Forall_app; split; [exact Hfields | assumption]].
      unfold fields.
      cbn [snd fst trace after_field after_fields after_open after_close
             after_call].
      rewrite <- ?app_assoc. reflexivity.
    + exists (fields ++ [Ole.Exists PATH_HTML]).
      split; [|apply Forall_app; split; [exact Hfields | assumption]].
      unfold fields.
      cbn [snd fst trace after_field after_fields after_open after_close
             after_call].
      rewrite <- ?app_assoc, app_nil_r. reflexivity.
Qed.

Lemma strip_heading (rest : str) :
  strip ((0x23 :: rest) ++ lit "## Content" ++ NL ++ NL)
  = (0x23 :: rest) ++ lit "## Content".
Proof.
  unfold strip. cbn [app]. rewrite lstrip_fixed by reflexivity.
  change (lit "## Content") with (lit "## Conten" ++ [116]).
  change (0x23 :: rest ++ (lit "## Conten" ++ [116]) ++ NL ++ NL)
    with ((0x23 :: rest) ++ (lit "## Conten" ++ [116]) ++ NL ++ NL).
  rewrite <- (app_assoc (lit "## Conten")), (app_assoc (0x23 :: rest)).
  rewrite (rstrip_trailing _ 116 (NL ++ NL)) by reflexivity.
  rewrite <- !app_assoc. reflexivity.
Qed.

Lemma spec_decodeStream_trimmed (path : str) (text : str) :
  spec_decodeStream msg path = Some text ->
  (forall x rest, text = x :: rest -> isspace x = false)
  /\ (forall front x, text = front ++ [x] -> isspace x = false).
Proof.
  unfold spec_decodeStream, spec_normalize.
  destruct (Ole.exists_ msg path) as [[|]|]; try discriminate.
  destruct (Ole.openstream_read msg path); [|discriminate].
  intros [= <-]. split.
  - intros x rest. apply strip_first.
  - intros front x. apply strip_last.
Qed.

(** X6.  The text of every result.  A run that returns decoded both halves
    of the sender, and its text is the trimmed concatenation of the title
    line, a blank line, the From line (always there, as its value holds at
    least [" <>"]), the To line and the Subject line (each there exactly
    when its field is non-empty), a blank line, the Content heading, a blank
    line, and the content section. *)
Theorem convert_result_layout (r : DocumentConverterResult) :
  fst (convert file_stream stream_info kwargs w) = Ok r ->
  exists sender email,
    spec_decodeStream msg PATH_SENDER_NAME = Some sender
    /\ spec_decodeStream msg PATH_SENDER_EMAIL = Some email
    /\ markdown r =
       strip (lit "# Email Message" ++ NL ++ NL
              ++ lit "**From:** " ++ sender ++ lit " <" ++ email ++ lit ">" ++ NL
              ++ header_line (lit "To") (spec_decodeStream msg PATH_TO)
              ++ header_line (lit "Subject") (spec_decodeStream msg PATH_SUBJECT)
              ++ NL ++ lit "## Content" ++ NL ++ NL
              ++ spec_content msg).
Proof.
  intros Hr.
  destruct (convert_returns_shape r Hr) as [sender [email [Hs [He [Hm _]]]]].
  exists sender, email. split; [exact Hs|]. split; [exact He|].
  rewrite Hm, rendered_head_layout, <- !app_assoc. reflexivity.
Qed.

(** X7.  The title of a result is the decoded Subject field: it is absent
    exactly when the subject stream does not exist or cannot be looked up or
    read, and a title that is present has no whitespace at either end. *)
Theorem convert_title_is_subject (r : DocumentConverterResult) :
  fst (convert file_stream stream_info kwargs w) = Ok r ->
  title r = spec_decodeStream msg PATH_SUBJECT
  /\ (title r = None <-> stream_absent msg PATH_SUBJECT)
  /\ (forall text,
        title r = Some text ->
        (forall x rest, text = x :: rest -> isspace x = false)
        /\ (forall front x, text = front ++ [x] -> isspace x = false)).
Proof.
  intros Hr.
  destruct (convert_returns_shape r Hr) as [sender [email [_ [_ [_ Ht]]]]].
  rewrite Ht. split; [reflexivity|]. split.
  - apply spec_decodeStream_absent.
  - intros text. apply spec_decodeStream_trimmed.
Qed.

(** X8.  With nothing to put in the content section (no usable plain body,
    and no HTML stream or an HTML stream with no plausible reading) the text
    of the result still has the title, the header lines and the Content
    heading, and it ends with that heading. *)
Theorem convert_without_content (r : DocumentConverterResult) :
  fst (convert file_stream stream_info kwargs w) = Ok r ->
  spec_content msg = [] ->
  exists sender email,
    spec_decodeStream msg PATH_SENDER_NAME = Some sender
    /\ spec_decodeStream msg PATH_SENDER_EMAIL = Some email
    /\ markdown r =
       lit "# Email Message" ++ NL ++ NL
       ++ lit "**From:** " ++ sender ++ lit " <" ++ email ++ lit ">" ++ NL
       ++ header_line (lit "To") (spec_decodeStream msg PATH_TO)
       ++ header_line (lit "Subject") (spec_decodeStream msg PATH_SUBJECT)
       ++ NL ++ lit "## Content".
Proof.
  intros Hr Hempty.
  destruct (convert_returns_shape r Hr) as [sender [email [Hs [He [Hm _]]]]].
  exists sender, email. split; [exact Hs|]. split; [exact He|].
  rewrite Hm, Hempty, app_nil_r, rendered_head_layout.
  change (lit "# Email Message") with (0x23 :: lit " Email Message").
  cbn [app].
  pose proof (strip_heading
                (lit " Email Message" ++ NL ++ NL
                 ++ lit "**From:** " ++ sender ++ lit " <" ++ email
                 ++ lit ">" ++ NL
                 ++ header_line (lit "To") (spec_decodeStream msg PATH_TO)
                 ++ header_line (lit "Subject")
                                (spec_decodeStream msg PATH_SUBJECT)
                 ++ NL)) as H.
  cbn [app] in H. rewrite <- !app_assoc in H. exact H.
Qed.

(** X9.  The ways [convert] fails once the container is open.  It raises
    [TypeError] when a half of the sender is absent, or it passes on the
    exception of the lookup or of the read of the HTML stream, which it
    reaches only without a usable plain body; there is no other failure, and
    a failing lookup or read of the HTML stream does fail the run. *)
Theorem convert_failures :
  (forall e,
      fst (convert file_stream stream_info kwargs w) = Raise e ->
      (e = TypeError
       /\ (stream_absent msg PATH_SENDER_NAME
           \/ stream_absent msg PATH_SENDER_EMAIL))
      \/ (truthy (spec_decodeStream msg PATH_BODY) = false
          /\ (Ole.exists_ msg PATH_HTML = Raise e
              \/ (Ole.exists_ msg PATH_HTML = Ok true
                  /\ Ole.openstream_read msg PATH_HTML = Raise e))))
  /\ (forall e,
        ~ stream_absent msg PATH_SENDER_NAME ->
        ~ stream_absent msg PATH_SENDER_EMAIL ->
        truthy (spec_decodeStream msg PATH_BODY) = false ->
        Ole.exists_ msg PATH_HTML = Raise e
        \/ (Ole.exists_ msg PATH_HTML = Ok true
            /\ Ole.openstream_read msg PATH_HTML = Raise e) ->
        fst (convert file_stream stream_info kwargs w) = Raise e).
Proof.
  split.
  - intros e.
    destruct (spec_decodeStream msg PATH_SENDER_NAME) as [sender|] eqn:Hname.
    2:{ rewrite (convert_sender_absent Hname). intros [= <-]. left.
        split; [reflexivity|]. left. now apply spec_decodeStream_absent. }
    destruct (spec_decodeStream msg PATH_SENDER_EMAIL) as [email|] eqn:Hemail.
    2:{ rewrite (convert_email_absent sender Hname Hemail). intros [= <-].
        left. split; [reflexivity|]. right.
        now apply spec_decodeStream_absent. }
    destruct (truthy (spec_decodeStream msg PATH_BODY)) eqn:Hbody.
    + rewrite (convert_plain_body sender email Hname Hemail Hbody).
      discriminate.
    + rewrite (convert_html_body sender email Hname Hemail Hbody).
      right. split; [reflexivity|].
      destruct (Ole.exists_ msg PATH_HTML) as [[|]|e'];
        [destruct (Ole.openstream_read msg PATH_HTML)|..];
        cbn [fst] in *; try discriminate.
      * right. split; [reflexivity|]. congruence.
      * left. congruence.
  - intros e Hn He Hbody Hhtml.
    destruct (spec_decodeStream msg PATH_SENDER_NAME) as [sender|] eqn:Hname;
      [|elim Hn; now apply spec_decodeStream_absent].
    destruct (spec_decodeStream msg PATH_SENDER_EMAIL) as [email|] eqn:Hemail;
      [|elim He; now apply spec_decodeStream_absent].
    rewrite (convert_html_body sender email Hname Hemail Hbody).
    destruct Hhtml as [-> | [-> ->]]; reflexivity.
Qed.

(** X10.  The container calls of a run, after the constructor: the
    container is opened once and never listed; every other call looks up or
    reads one of the six streams of [convert]; [close] is called only by a
    run that returns, once, and it is then the last call. *)
Theorem convert_call_discipline :
  exists calls,
    trace (snd (convert file_stream stream_info kwargs w))
    = trace w ++ Ole.Open :: calls
    /\ ~ In Ole.Open calls
    /\ ~ In Ole.Listdir calls
    /\ (forall ev, In ev calls ->
                   ev = Ole.Close
                   \/ exists p, In p convert_paths /\ consults p ev)
    /\ (In Ole.Close calls ->
        exists r front,
          fst (convert file_stream stream_info kwargs w) = Ok r
          /\ calls = front ++ [Ole.Close] /\ ~ In Ole.Close front)
    /\ (forall r, fst (convert file_stream stream_info kwargs w) = Ok r ->
                  In Ole.Close calls).
Proof using Himp Hnew.
  destruct convert_trace_shape as [middle [Htrace Hmiddle]].
  rewrite Forall_forall in Hmiddle.
  assert (Hnot : forall ev, In ev middle ->
            ev <> Ole.Open /\ ev <> Ole.Listdir /\ ev <> Ole.Close).
  { intros ev Hin. destruct (Hmiddle ev Hin) as [p [_ [-> | ->]]];
      repeat split; discriminate. }
  destruct (fst (convert file_stream stream_info kwargs w)) as [r|e] eqn:Hrun.
  - exists (middle ++ [Ole.Close]). split; [exact Htrace|].
    split; [|split; [|split; [|split]]].
    + intros Hin. apply in_app_or in Hin as [Hin|Hin];
        [destruct (Hnot _ Hin) as (H1 & H2 & H3);
        first [now elim H1 | now elim H2 | now elim H3] | destruct Hin as [Hin|Hin]];
        [discriminate | exact Hin].
    + intros Hin. apply in_app_or in Hin as [Hin|Hin];
        [destruct (Hnot _ Hin) as (H1 & H2 & H3);
        first [now elim H1 | now elim H2 | now elim H3] | destruct Hin as [Hin|Hin]];
        [discriminate | exact Hin].
    + intros ev Hin. apply in_app_or in Hin as [Hin|Hin];
        [right; now apply Hmiddle | destruct Hin as [Hin|Hin]];
        [now left | elim Hin].
    + intros _. exists r, middle. split; [reflexivity|].
      split; [reflexivity|]. intros Hin. destruct (Hnot _ Hin) as (H1 & H2 & H3);
        first [now elim H1 | now elim H2 | now elim H3].
    + intros _ _. apply in_or_app. right. now left.
  - exists middle. rewrite app_nil_r in Htrace. split; [exact Htrace|].
    split; [|split; [|split; [|split]]].
    + intros Hin. destruct (Hnot _ Hin) as (H1 & H2 & H3);
        first [now elim H1 | now elim H2 | now elim H3].
    + intros Hin. destruct (Hnot _ Hin) as (H1 & H2 & H3);
        first [now elim H1 | now elim H2 | now elim H3].
    + intros ev Hin. right. now apply Hmiddle.
    + intros Hin. destruct (Hnot _ Hin) as (H1 & H2 & H3);
        first [now elim H1 | now elim H2 | now elim H3].
    + discriminate.
Qed.

(** X15.  A plain body that holds only whitespace counts as no body: its
    field is the empty string, so a run with both halves of the sender goes
    on to look up the HTML stream, and when that stream exists and can be
    read the run returns a result whose content section is what the HTML
    fallback gives for it. *)
Theorem convert_blank_body_uses_html (data : bytes) :
  ~ stream_absent msg PATH_SENDER_NAME ->
  ~ stream_absent msg PATH_SENDER_EMAIL ->
  Ole.exists_ msg PATH_BODY = Ok true ->
  Ole.openstream_read msg PATH_BODY = Ok data ->
  forallb isspace (spec_first_decode data) = true ->
  spec_decodeStream msg PATH_BODY = Some []
  /\ In (Ole.Exists PATH_HTML)
        (trace (snd (convert file_stream stream_info kwargs w)))
  /\ (forall raw_data,
        Ole.exists_ msg PATH_HTML = Ok true ->
        Ole.openstream_read msg PATH_HTML = Ok raw_data ->
        exists r sender email,
          fst (convert file_stream stream_info kwargs w) = Ok r
          /\ spec_decodeStream msg PATH_SENDER_NAME = Some sender
          /\ spec_decodeStream msg PATH_SENDER_EMAIL = Some email
          /\ markdown r =
             strip (lit "# Email Message" ++ NL ++ NL
                    ++ lit "**From:** " ++ sender ++ lit " <" ++ email
                    ++ lit ">" ++ NL
                    ++ header_line (lit "To") (spec_decodeStream msg PATH_TO)
                    ++ header_line (lit "Subject")
                                   (spec_decodeStream msg PATH_SUBJECT)
                    ++ NL ++ lit "## Content" ++ NL ++ NL
                    ++ spec_html_fallback raw_data)).
Proof.
  intros Hn He Hex Hread Hblank.
  assert (Hbody : spec_decodeStream msg PATH_BODY = Some []).
  { unfold spec_decodeStream. rewrite Hex, Hread.
    now rewrite (spec_normalize_blank _ Hblank). }
  destruct (spec_decodeStream msg PATH_SENDER_NAME) as [sender|] eqn:Hname;
    [|elim Hn; now apply spec_decodeStream_absent].
  destruct (spec_decodeStream msg PATH_SENDER_EMAIL) as [email|] eqn:Hemail;
    [|elim He; now apply spec_decodeStream_absent].
  assert (Htruthy : truthy (spec_decodeStream msg PATH_BODY) = false)
    by now rewrite Hbody.
  split; [exact Hbody|]. split.
  - rewrite (convert_html_body sender email Hname Hemail Htruthy).
    destruct (Ole.exists_ msg PATH_HTML) as [[|]|e];
      [destruct (Ole.openstream_read msg PATH_HTML)|..];
      cbn [snd trace after_call after_close];
      repeat (apply in_or_app; first [right; now left | left]).
  - intros raw_data Hhtml Hraw.
    rewrite (convert_html_body sender email Hname Hemail Htruthy).
    rewrite Hhtml, Hraw. cbn [fst].
    eexists. exists sender, email.
    split; [reflexivity|]. split; [reflexivity|]. split; [reflexivity|].
    cbn [markdown]. now rewrite rendered_head_layout, <- !app_assoc.
Qed.

End Opened.

(** ** The format detector *)

Lemma accepts_declared (file_stream : bytes) (stream_info : StreamInfo)
      (kwargs : Kwargs) (w : World) :
  declared_match stream_info = true ->
  accepts file_stream stream_info kwargs w = (Ok true, w).
Proof.
  unfold declared_match, accepts. intros H.
  destruct (mem _ ACCEPTED_FILE_EXTENSIONS); [reflexivity|].
  cbn [orb] in H. now rewrite H.
Qed.

Lemma accepts_probed (file_stream : bytes) (stream_info : StreamInfo)
      (kwargs : Kwargs) (w : World) :
  declared_match stream_info = false ->
  fst (accepts file_stream stream_info kwargs w)
  = Ok (spec_probe file_stream (cursor w)).
Proof.
  unfold declared_match, accepts, spec_probe, olefile. intros H.
  apply orb_false_elim in H as [-> ->].
  destruct import_olefile as [ole|]; [|reflexivity].
  unfold bind, try_finally, try_except, tell, seek, call_isOleFile,
    call_OleFileIO, msg_listdir, method, ret.
  destruct (Ole.isOleFile ole file_stream (cursor w)) as [[|] c1];
    cbn [fst snd negb andb cursor open_handles trace]; [|reflexivity].
  destruct (Ole.new ole file_stream (cursor w)) as [[msg|e] c2];
    cbn [fst snd cursor open_handles trace]; [|reflexivity].
  destruct (Ole.listdir msg) as [entries|e]; reflexivity.
Qed.

(** C7.  On every branch of [accepts] (extension match, media-type match,
    container probing, with or without the package, with or without an
    exception while opening or listing the container) the input stream's read
    position is the same after the call as before it. *)
Theorem accepts_restores_cursor (file_stream : bytes) (stream_info : StreamInfo)
      (kwargs : Kwargs) (w : World) :
  cursor (snd (accepts file_stream stream_info kwargs w)) = cursor w.
Proof.
  destruct (declared_match stream_info) eqn:H.
  - now rewrite accepts_declared.
  - unfold declared_match in H. apply orb_false_elim in H as [H1 H2].
    unfold accepts, olefile. rewrite H1, H2.
    unfold bind, try_finally, try_except, tell, seek, call_isOleFile,
      call_OleFileIO, msg_listdir, method, ret.
    destruct import_olefile as [ole|]; [|reflexivity].
    destruct (Ole.isOleFile ole file_stream (cursor w)) as [[|] c1];
      cbn [fst snd negb cursor open_handles trace]; [|reflexivity].
    destruct (Ole.new ole file_stream (cursor w)) as [[msg|e] c2];
      cbn [fst snd cursor open_handles trace]; [|reflexivity].
    destruct (Ole.listdir msg) as [entries|e]; reflexivity.
Qed.

(** ** What a run depends on *)

Create HintDb determined.

Lemma determined_ret {A} (a : A) : cursor_determined (ret a).
Proof. intros w1 w2 H. now split. Qed.

Lemma determined_raise {A} (e : exn) : cursor_determined (@raise A e).
Proof. intros w1 w2 H. now split. Qed.

Lemma determined_lift {A} (r : res A) : cursor_determined (lift r).
Proof. intros w1 w2 H. now split. Qed.




Lemma determined_tell : cursor_determined tell.
Proof. intros w1 w2 H. cbn. split; congruence. Qed.

Lemma determined_seek (pos : N) : cursor_determined (seek pos).
Proof. intros w1 w2 H. now split. Qed.

Lemma determined_isOleFile (ole : Ole.module) (file_stream : bytes) :
  cursor_determined (call_isOleFile ole file_stream).
Proof.
  intros w1 w2 H. unfold call_isOleFile. rewrite H.
  destruct (Ole.isOleFile ole file_stream (cursor w2)). now split.
Qed.

Lemma determined_OleFileIO (ole : Ole.module) (file_stream : bytes) :
  cursor_determined (call_OleFileIO ole file_stream).
Proof.
  intros w1 w2 H. unfold call_OleFileIO. rewrite H.
  destruct (Ole.new ole file_stream (cursor w2)) as [[msg|e] c]; now split.
Qed.

Lemma determined_method {A} (msg : Ole.OleFileIO) (ev : Ole.event) (r : res A) :
  cursor_determined (method msg ev r).
Proof. intros w1 w2 H. unfold method. cbn. now rewrite H. Qed.

Lemma determined_close (msg : Ole.OleFileIO) : cursor_determined (msg_close msg).
Proof. intros w1 w2 H. unfold msg_close. cbn. now rewrite H. Qed.

Hint Resolve determined_ret determined_raise determined_lift determined_tell
  determined_seek determined_isOleFile determined_OleFileIO determined_method
  determined_close : determined.





(** C6.  [accepts] answers true, without touching the input, when the
    lowered extension is the canonical one, and when the lowered media type
    starts with the canonical prefix; otherwise it never raises, and answers
    true exactly when the package is there, the input is a container, opens
    as one, and its joined directory listing contains both markers, so that
    an exception while opening or listing yields false. *)
Theorem accepts_decision (file_stream : bytes) (stream_info : StreamInfo)
        (kwargs : Kwargs) (w : World) :
  let run := accepts file_stream stream_info kwargs w in
  (str_lower (or_empty (extension stream_info)) = lit ".msg" ->
   run = (Ok true, w))
  /\ (startswith (str_lower (or_empty (mimetype stream_info)))
                 (lit "application/vnd.ms-outlook") = true ->
      run = (Ok true, w))
  /\ (declared_match stream_info = false ->
      exists answer,
        fst run = Ok answer
        /\ (answer = true <->
            exists ole msg entries,
              import_olefile = Some ole
              /\ fst (Ole.isOleFile ole file_stream (cursor w)) = true
              /\ fst (Ole.new ole file_stream (cursor w)) = Ok msg
              /\ Ole.listdir msg = Ok entries
              /\ contains (lit "__properties_version1.0") (toc_of entries) = true
              /\ contains (lit "__recip_version1.0_#00000000") (toc_of entries)
                 = true)
        /\ (forall ole e,
              import_olefile = Some ole ->
              fst (Ole.new ole file_stream (cursor w)) = Raise e ->
              answer = false)
        /\ (forall ole msg e,
              import_olefile = Some ole ->
              fst (Ole.new ole file_stream (cursor w)) = Ok msg ->
              Ole.listdir msg = Raise e ->
              answer = false)).
Proof.
  cbv zeta. split; [|split].
  - intros Hext. apply accepts_declared. unfold declared_match.
    rewrite Hext. reflexivity.
  - intros Hmime. apply accepts_declared. unfold declared_match.
    cbn [existsb ACCEPTED_MIME_TYPE_PREFIXES]. rewrite Hmime.
    now rewrite orb_true_r.
  - intros Hno. exists (spec_probe file_stream (cursor w)).
    split; [now apply accepts_probed|].
    unfold spec_probe, has_markers. split; [split|split].
    + destruct import_olefile as [ole|]; [|discriminate].
      intros H. apply andb_prop in H as [Hole H].
      destruct (fst (Ole.new ole file_stream (cursor w))) as [msg|e] eqn:Hnew;
        [|discriminate].
      destruct (Ole.listdir msg) as [entries|e] eqn:Hlist; [|discriminate].
      apply andb_prop in H as [H1 H2].
      exists ole, msg, entries.
      repeat split; first [reflexivity | assumption].
    + intros [ole [msg [entries [-> [Hole [-> [-> [H1 H2]]]]]]]].
      now rewrite Hole, H1, H2.
    + intros ole e -> ->. now rewrite andb_false_r.
    + intros ole msg e -> -> ->. now rewrite andb_false_r.
Qed.

(** C4.  The HTML fallback returns the rendering of the first plausible text
    among its attempts, taken in the order UTF-16LE, ISO-8859-1, UTF-8 with
    invalid sequences discarded, each normalized, and the ISO-8859-1 attempt
    alone when the UTF-16LE decode raised; it returns the empty text, without
    raising, when no attempt is plausible. *)
Theorem process_html_stream_first_plausible (raw_data : bytes) :
  _process_html_stream raw_data = Ok (spec_html_fallback raw_data)
  /\ (forall text,
        decode_utf16le raw_data = Ok text ->
        spec_html_attempts raw_data
        = [_strip_null_terminator text;
           _strip_null_terminator (latin1_text raw_data);
           _strip_null_terminator (utf8_discard_text raw_data)])
  /\ (forall html,
        find is_valid_html (spec_html_attempts raw_data) = Some html ->
        _process_html_stream raw_data = Ok (Markdownify html))
  /\ (forallb (fun text => negb (is_valid_html text))
              (spec_html_attempts raw_data) = true ->
      _process_html_stream raw_data = Ok [])
  /\ (forall e,
        decode_utf16le raw_data = Raise e ->
        is_valid_html (_strip_null_terminator (latin1_text raw_data)) = false ->
        _process_html_stream raw_data = Ok []).
Proof.
  assert (Hfind : forall l, find is_valid_html l = find spec_plausible l).
  { induction l as [|x l IH]; [reflexivity|]. cbn [find].
    now rewrite is_valid_html_spec, IH. }
  rewrite process_html_stream_run. unfold spec_html_fallback.
  split; [reflexivity|]. split; [|split; [|split]].
  - intros text H. unfold spec_html_attempts. rewrite H.
    now rewrite !strip_null_terminator_spec.
  - intros html H. rewrite Hfind in H. now rewrite H.
  - intros H.
    assert (Hnone : find spec_plausible (spec_html_attempts raw_data) = None).
    { rewrite <- Hfind.
      induction (spec_html_attempts raw_data) as [|x l IH]; [reflexivity|].
      cbn [forallb find] in *. apply andb_prop in H as [Hx Hl].
      destruct (is_valid_html x); [discriminate | now apply IH]. }
    now rewrite Hnone.
  - intros e H16 Hlatin. unfold spec_html_attempts. rewrite H16.
    cbn [find]. rewrite <- is_valid_html_spec, <- strip_null_terminator_spec.
    now rewrite Hlatin.
Qed.

(** C9.  On every byte sequence the HTML-stream processor returns a string:
    the only failure of the UTF-16LE decode is the [UnicodeDecodeError] that
    is caught, the ISO-8859-1 decode succeeds on all bytes, and the UTF-8
    decode that ignores errors does not fail. *)
Theorem process_html_stream_total (raw_data : bytes) :
  (exists text, _process_html_stream raw_data = Ok text)
  /\ (forall e, decode_utf16le raw_data = Raise e -> e = UnicodeDecodeError)
  /\ (exists text, decode_latin1 raw_data = Ok text)
  /\ (exists text, decode_utf8 Ignore raw_data = Ok text).
Proof.
  split; [|split; [|split]].
  - eexists. apply process_html_stream_run.
  - apply decode_utf16le_raises.
  - eexists. reflexivity.
  - apply decode_utf8_ignore_total.
Qed.

(** C5.  With the package loaded, the stream decoder never raises; it
    returns an absent field when the stream does not exist or the lookup or
    the read raises; otherwise it returns the normalization of the first
    decode that succeeds among UTF-16LE, UTF-8, and UTF-8 with invalid
    sequences discarded, which always succeeds.  The normalization drops one
    trailing null character when there is one and then trims whitespace at
    both ends; the UTF-16LE bytes of "Hello" followed by a null give
    "Hello". *)
Theorem get_stream_data_decodes (ole : Ole.module) (msg : Ole.OleFileIO)
        (path : str) (w : World) :
  import_olefile = Some ole ->
  let run := _get_stream_data msg path w in
  (exists field, fst run = Ok field)
  /\ (Ole.exists_ msg path <> Ok true
      \/ (exists e, Ole.openstream_read msg path = Raise e) ->
      fst run = Ok None)
  /\ (forall data,
        Ole.exists_ msg path = Ok true ->
        Ole.openstream_read msg path = Ok data ->
        fst run = Ok (Some (_strip_null_terminator (spec_first_decode data)))
        /\ (forall text, decode_utf16le data = Ok text ->
                         spec_first_decode data = text)
        /\ (forall e text, decode_utf16le data = Raise e ->
                           decode_utf8 Strict data = Ok text ->
                           spec_first_decode data = text)
        /\ (forall e e', decode_utf16le data = Raise e ->
                         decode_utf8 Strict data = Raise e' ->
                         decode_utf8 Ignore data = Ok (spec_first_decode data)))
  /\ (forall text, _strip_null_terminator (text ++ [0]) = strip text)
  /\ (forall text c, c <> 0 ->
                     _strip_null_terminator (text ++ [c]) = strip (text ++ [c]))
  /\ _strip_null_terminator [] = []
  /\ (forall text,
        (forall c rest, strip text = c :: rest -> isspace c = false)
        /\ (forall front c, strip text = front ++ [c] -> isspace c = false)
        /\ exists before after,
             text = before ++ strip text ++ after
             /\ forallb isspace before = true /\ forallb isspace after = true)
  /\ (Ole.exists_ msg path = Ok true ->
      Ole.openstream_read msg path
      = Ok (utf16le_bytes "Hello" ++ [x00; x00]%byte) ->
      fst run = Ok (Some (lit "Hello"))).
Proof.
  intros Himp. cbv zeta. rewrite (get_stream_data_run ole msg path w Himp).
  cbn [fst]. unfold spec_decodeStream.
  split; [eexists; reflexivity|].
  split.
  { intros [H|[e H]].
    - destruct (Ole.exists_ msg path) as [[|]|]; [now elim H|reflexivity..].
    - rewrite H. now destruct (Ole.exists_ msg path) as [[|]|]. }
  split.
  { intros data -> ->. rewrite strip_null_terminator_spec.
    split; [reflexivity|]. unfold spec_first_decode, utf8_discard_text.
    split; [|split].
    - now intros text ->.
    - now intros e text -> ->.
    - intros e e' -> ->.
      now destruct (decode_utf8_ignore_total data) as [t ->]. }
  split; [apply strip_null_terminator_null|].
  split; [apply strip_null_terminator_other|].
  split; [reflexivity|].
  split.
  { intros text. split; [intros c rest; apply strip_first|].
    split; [intros front c; apply strip_last|].
    unfold strip, rstrip.
    destruct (lstrip_suffix text) as [before [Hb Hsb]].
    destruct (lstrip_suffix (rev (lstrip text))) as [after [Ha Hsa]].
    exists before, (rev after). split; [|split].
    - rewrite Hb at 1. f_equal.
      apply (f_equal (@rev N)) in Ha.
      rewrite rev_involutive, rev_app_distr in Ha. exact Ha.
    - exact Hsb.
    - rewrite forallb_forall in *. intros x Hx. apply Hsa.
      now apply in_rev. }
  intros -> ->. reflexivity.
Qed.



(** ** More on the detector, and the detector before the converter *)

Lemma world_eta (w : World) :
  mkWorld (cursor w) (open_handles w) (trace w) = w.
Proof. now destruct w. Qed.

(** The run of [accepts] that reaches the container probing. *)
Lemma accepts_probe_run (ole : Ole.module) (file_stream : bytes)
      (stream_info : StreamInfo) (kwargs : Kwargs) (w : World) :
  import_olefile = Some ole ->
  declared_match stream_info = false ->
  accepts file_stream stream_info kwargs w
  = if fst (Ole.isOleFile ole file_stream (cursor w)) then
      match fst (Ole.new ole file_stream (cursor w)) with
      | Ok msg =>
          (Ok match Ole.listdir msg with
              | Ok entries => has_markers entries
              | Raise _ => false
              end,
           mkWorld (cursor w) (S (open_handles w))
                   (trace w ++ [Ole.Open; Ole.Listdir]))
      | Raise _ => (Ok false, w)
      end
    else (Ok false, w).
Proof.
  intros Himp H. unfold declared_match in H.
  apply orb_false_elim in H as [H1 H2].
  unfold accepts, olefile, has_markers, toc_of. rewrite H1, H2, Himp.
  unfold bind, try_finally, try_except, tell, seek, call_isOleFile,
    call_OleFileIO, msg_listdir, method, ret.
  destruct (Ole.isOleFile ole file_stream (cursor w)) as [[|] c1];
    cbn [fst snd negb cursor open_handles trace];
    [|now rewrite world_eta].
  destruct (Ole.new ole file_stream (cursor w)) as [[msg|e] c2];
    cbn [fst snd cursor open_handles trace]; [|now rewrite world_eta].
  rewrite <- app_assoc.
  destruct (Ole.listdir msg) as [entries|e]; reflexivity.
Qed.

(** X5.  The marker test of [accepts] is a substring test on the joined
    listing: when nothing is declared and the input opens as a container
    whose directory can be listed, [accepts] answers true exactly when both
    marker strings occur somewhere in the text made of [str(entry)] for each
    listed entry, one per line, and false otherwise. *)
Theorem accepts_markers_substrings (ole : Ole.module) (msg : Ole.OleFileIO)
        (entries : list (list str)) (file_stream : bytes)
        (stream_info : StreamInfo) (kwargs : Kwargs) (w : World) :
  import_olefile = Some ole ->
  declared_match stream_info = false ->
  fst (Ole.isOleFile ole file_stream (cursor w)) = true ->
  fst (Ole.new ole file_stream (cursor w)) = Ok msg ->
  Ole.listdir msg = Ok entries ->
  (exists answer, fst (accepts file_stream stream_info kwargs w) = Ok answer)
  /\ (fst (accepts file_stream stream_info kwargs w) = Ok true <->
      (exists before after,
          join NL (map str_of_entry entries)
          = before ++ lit "__properties_version1.0" ++ after)
      /\ (exists before after,
             join NL (map str_of_entry entries)
             = before ++ lit "__recip_version1.0_#00000000" ++ after)).
Proof.
  intros Himp Hno Hole Hnew Hlist.
  rewrite (accepts_probe_run ole file_stream stream_info kwargs w Himp Hno).
  rewrite Hole, Hnew, Hlist. cbn [fst].
  split; [eexists; reflexivity|].
  unfold has_markers, toc_of.
  rewrite <- !contains_spec, <- andb_true_iff.
  split; [now intros [= ->] | now intros ->].
Qed.

(** X11.  When the package says the input is not a container, or its
    constructor fails on the input, [accepts] answers false and leaves
    everything as it was: no container is left open and no call on a
    container is made. *)
Theorem accepts_rejects_without_trace (ole : Ole.module) (file_stream : bytes)
        (stream_info : StreamInfo) (kwargs : Kwargs) (w : World) :
  import_olefile = Some ole ->
  declared_match stream_info = false ->
  fst (Ole.isOleFile ole file_stream (cursor w)) = false
  \/ (exists e, fst (Ole.new ole file_stream (cursor w)) = Raise e) ->
  accepts file_stream stream_info kwargs w = (Ok false, w).
Proof.
  intros Himp Hno Hrej.
  rewrite (accepts_probe_run ole file_stream stream_info kwargs w Himp Hno).
  destruct Hrej as [-> | [e ->]]; [reflexivity|].
  now destruct (fst (Ole.isOleFile ole file_stream (cursor w))).
Qed.

(** X12.  [accepts] never closes the container it opens for probing: when
    the probing gets as far as opening the input as a container, the run
    ends, whatever the answer and whether listing the directory raised, with
    one more open handle than it began with, after exactly the calls
    [OleFileIO(...)] and [listdir()]. *)
Theorem accepts_leaves_container_open (ole : Ole.module) (msg : Ole.OleFileIO)
        (file_stream : bytes) (stream_info : StreamInfo) (kwargs : Kwargs)
        (w : World) :
  import_olefile = Some ole ->
  declared_match stream_info = false ->
  fst (Ole.isOleFile ole file_stream (cursor w)) = true ->
  fst (Ole.new ole file_stream (cursor w)) = Ok msg ->
  snd (accepts file_stream stream_info kwargs w)
  = mkWorld (cursor w) (S (open_handles w))
            (trace w ++ [Ole.Open; Ole.Listdir]).
Proof.
  intros Himp Hno Hole Hnew.
  rewrite (accepts_probe_run ole file_stream stream_info kwargs w Himp Hno).
  now rewrite Hole, Hnew.
Qed.

(** X13.  The detector before the converter.  When [accepts] says yes by
    probing the container, a [convert] that follows on the same stream finds
    the cursor where the probe found it, so the constructor succeeds again:
    the run of [convert] opens the container, and it neither raises the
    missing-dependency error nor stops at the constructor. *)
Theorem accepts_then_convert (file_stream : bytes)
        (stream_info : StreamInfo) (kwargs : Kwargs) (w : World) :
  declared_match stream_info = false ->
  fst (accepts file_stream stream_info kwargs w) = Ok true ->
  let w' := snd (accepts file_stream stream_info kwargs w) in
  exists calls,
    trace (snd (convert file_stream stream_info kwargs w'))
    = trace w' ++ Ole.Open :: calls.
Proof.
  intros Hno Hyes. cbv zeta.
  destruct import_olefile as [ole|] eqn:Himp.
  2:{ rewrite accepts_probed in Hyes by exact Hno.
      unfold spec_probe in Hyes. rewrite Himp in Hyes. discriminate. }
  rewrite (accepts_probe_run ole file_stream stream_info kwargs w Himp Hno)
    in *.
  destruct (fst (Ole.isOleFile ole file_stream (cursor w)));
    [|discriminate].
  destruct (Ole.new ole file_stream (cursor w)) as [[msg|e] c] eqn:Hnew;
    cbn [fst snd] in *; [|discriminate].
  set (w' := mkWorld (cursor w) (S (open_handles w))
                     (trace w ++ [Ole.Open; Ole.Listdir])).
  assert (Hnew' : Ole.new ole file_stream (cursor w') = (Ok msg, c))
    by exact Hnew.
  destruct (convert_trace_shape ole msg c file_stream stream_info kwargs w'
                                Himp Hnew') as [middle [Htrace _]].
  rewrite Htrace. eexists. reflexivity.
Qed.

(** ** What the outcome depends on *)







End Converter.

(** ** Without the olefile package *)

(** C8.  When [import olefile] failed, [convert] raises, on every input and
    before any call on the input, the [MissingDependencyException] whose
    message is the dependency message formatted with the converter's name,
    the extension [.msg] and the feature [outlook]; [accepts] does not raise
    and leaves the input alone: it answers by the declared extension and
    media type, hence false when neither matches. *)
Theorem olefile_missing
        (Markdownify str_lower str_repr : str -> str)
        (MISSING_DEPENDENCY_MESSAGE_format : str -> str -> str -> str)
        (Rest Kwargs : Type) (file_stream : bytes)
        (stream_info : StreamInfoOf Rest) (kwargs : Kwargs) (w : World) :
  convert Markdownify str_lower MISSING_DEPENDENCY_MESSAGE_format Rest Kwargs
          None file_stream stream_info kwargs w
  = (Raise (MissingDependencyException
              (MISSING_DEPENDENCY_MESSAGE_format
                 (lit "OutlookMsgConverter") (lit ".msg") (lit "outlook"))),
     w)
  /\ accepts str_lower str_repr Rest Kwargs None file_stream stream_info kwargs w
     = (Ok (declared_match str_lower Rest stream_info), w)
  /\ (declared_match str_lower Rest stream_info = false ->
      accepts str_lower str_repr Rest Kwargs None file_stream stream_info
              kwargs w
      = (Ok false, w)).
Proof.
  assert (Hacc : accepts str_lower str_repr Rest Kwargs None file_stream
                         stream_info kwargs w
                 = (Ok (declared_match str_lower Rest stream_info), w)).
  { destruct (declared_match str_lower Rest stream_info) eqn:H.
    - now apply accepts_declared.
    - unfold declared_match in H. apply orb_false_elim in H as [H1 H2].
      unfold accepts, olefile. rewrite H1, H2. destruct w. reflexivity. }
  split; [reflexivity|]. split; [exact Hacc|].
  intros H. now rewrite Hacc, H.
Qed.

(** ** The properties on the sample inputs *)

Lemma olefile_missing_witness :
  accepts lower_latin1 Sample.repr string unit None []
          (Sample.undeclared "notes.txt") tt Sample.world
  = (Ok false, Sample.world).
Proof.
  apply (olefile_missing Sample.htmlToText lower_latin1 Sample.repr
                         Sample.message_format string unit []
                         (Sample.undeclared "notes.txt") tt Sample.world).
  reflexivity.
Defined.

Lemma convert_absent_from_half_raises_witness :
  fst (convert Sample.htmlToText lower_latin1 Sample.message_format string unit
               (Some (Sample.package Sample.nameless_message)) []
               (Sample.undeclared "mail.msg") tt Sample.world)
  = Raise TypeError.
Proof.
  apply (convert_absent_from_half_raises
           Sample.htmlToText lower_latin1 Sample.message_format string unit
           (Some (Sample.package Sample.nameless_message))
           (Sample.package Sample.nameless_message)
           (Sample.container Sample.nameless_message) 0).
  - reflexivity.
  - reflexivity.
  - left. left. vm_compute. discriminate.
Defined.

Lemma convert_closes_only_on_return_witness :
  open_handles
    (snd (convert Sample.htmlToText lower_latin1 Sample.message_format
                  string unit
                  (Some (Sample.package Sample.nameless_message)) []
                  (Sample.undeclared "mail.msg") tt Sample.world))
  = S (open_handles Sample.world).
Proof.
  apply (proj2 (convert_closes_only_on_return
                  Sample.htmlToText lower_latin1 Sample.message_format
                  string unit
                  (Some (Sample.package Sample.nameless_message))
                  (Sample.package Sample.nameless_message)
                  (Sample.container Sample.nameless_message) 0
                  [] (Sample.undeclared "mail.msg") tt Sample.world
                  eq_refl eq_refl)
               TypeError).
  reflexivity.
Defined.

Lemma convert_prefers_plain_body_witness :
  let msg := Sample.container Sample.full_message in
  let run := convert Sample.htmlToText lower_latin1 Sample.message_format
                     string unit (Some (Sample.package Sample.full_message)) []
                     (Sample.undeclared "mail.msg") tt Sample.world in
  exists events,
    trace (snd run) = trace Sample.world ++ events
    /\ Forall (fun ev => ~ consults PATH_HTML ev) events
    /\ exists r,
         fst run = Ok r
         /\ markdown r =
            rendered_head (lit "Alice") (lit "a@x.com")
                          (spec_decodeStream msg PATH_TO)
                          (spec_decodeStream msg PATH_SUBJECT)
            ++ lit "Hi there".
Proof.
  cbv zeta.
  destruct (convert_prefers_plain_body
              Sample.htmlToText lower_latin1 Sample.message_format string unit
              (Some (Sample.package Sample.full_message))
              (Sample.package Sample.full_message)
              (Sample.container Sample.full_message) 0
              [] (Sample.undeclared "mail.msg") tt Sample.world
              eq_refl eq_refl)
    as [events [Htrace [Hbody _]]].
  exists events. split; [exact Htrace|].
  assert (Hne : lit "Hi there" <> []) by discriminate.
  destruct (Hbody (lit "Hi there") eq_refl Hne) as [Hall [Hmd Hret]].
  split; [exact Hall|].
  destruct (Hret (lit "Alice") (lit "a@x.com") eq_refl eq_refl) as [r Hr].
  exists r. split; [exact Hr|].
  destruct (Hmd r Hr) as [sender [email [Hs [He Hm]]]].
  vm_compute in Hs. vm_compute in He.
  injection Hs as <-. injection He as <-. exact Hm.
Defined.

Lemma process_html_stream_first_plausible_witness :
  _process_html_stream Sample.htmlToText lower_latin1
                       (ascii_bytes "<html><body>Hi</body></html>")
  = Ok (Sample.htmlToText (lit "<html><body>Hi</body></html>"))
  /\ _process_html_stream Sample.htmlToText lower_latin1
                          (ascii_bytes "<ht" ++ [xff]%byte ++ ascii_bytes "ml ")
     = Ok [].
Proof.
  split.
  - destruct (process_html_stream_first_plausible
                Sample.htmlToText lower_latin1
                (ascii_bytes "<html><body>Hi</body></html>"))
      as (_ & _ & Hfound & _).
    apply Hfound. reflexivity.
  - destruct (process_html_stream_first_plausible
                Sample.htmlToText lower_latin1
                (ascii_bytes "<ht" ++ [xff]%byte ++ ascii_bytes "ml "))
      as (_ & _ & _ & _ & Hraised).
    apply (Hraised UnicodeDecodeError); reflexivity.
Defined.

Lemma process_html_stream_total_witness :
  exists text,
    _process_html_stream Sample.htmlToText lower_latin1
                         (ascii_bytes "<ht" ++ [xff]%byte ++ ascii_bytes "ml ")
    = Ok text.
Proof.
  apply (process_html_stream_total
           Sample.htmlToText lower_latin1
           (ascii_bytes "<ht" ++ [xff]%byte ++ ascii_bytes "ml ")).
Defined.

Lemma get_stream_data_decodes_witness :
  fst (_get_stream_data (Some (Sample.package Sample.hello_message))
                        (Sample.container Sample.hello_message)
                        PATH_SUBJECT Sample.world)
  = Ok (Some (lit "Hello")).
Proof.
  destruct (get_stream_data_decodes
              (Some (Sample.package Sample.hello_message))
              (Sample.package Sample.hello_message)
              (Sample.container Sample.hello_message)
              PATH_SUBJECT Sample.world eq_refl)
    as (_ & _ & _ & _ & _ & _ & _ & Hhello).
  apply Hhello; reflexivity.
Defined.

Lemma accepts_decision_witness :
  accepts lower_latin1 Sample.repr string unit
          (Some (Sample.package Sample.full_message)) []
          Sample.declared_msg tt Sample.world
  = (Ok true, Sample.world)
  /\ fst (accepts lower_latin1 Sample.repr string unit
                  (Some (Sample.package Sample.full_message)) []
                  (Sample.undeclared "mail") tt Sample.world)
     = Ok true
  /\ fst (accepts lower_latin1 Sample.repr string unit
                  (Some Sample.failing_package) []
                  (Sample.undeclared "mail") tt Sample.world)
     = Ok false.
Proof.
  split; [|split].
  - apply (proj1 (accepts_decision lower_latin1 Sample.repr string unit
                    (Some (Sample.package Sample.full_message)) []
                    Sample.declared_msg tt Sample.world)).
    reflexivity.
  - destruct (accepts_decision lower_latin1 Sample.repr string unit
                (Some (Sample.package Sample.full_message)) []
                (Sample.undeclared "mail") tt Sample.world)
      as (_ & _ & Hprobe).
    destruct (Hprobe eq_refl) as [answer [Hrun [Hiff _]]].
    rewrite Hrun. f_equal. apply Hiff.
    exists (Sample.package Sample.full_message),
      (Sample.container Sample.full_message),
      (map (fun kv => [fst kv]) Sample.full_message).
    repeat split; reflexivity.
  - destruct (accepts_decision lower_latin1 Sample.repr string unit
                (Some Sample.failing_package) []
                (Sample.undeclared "mail") tt Sample.world)
      as (_ & _ & Hprobe).
    destruct (Hprobe eq_refl) as [answer [Hrun [_ [Hnew _]]]].
    rewrite Hrun. f_equal.
    apply (Hnew Sample.failing_package (LibraryError 1)); reflexivity.
Defined.



(** ** Further properties on the sample inputs *)

Lemma strip_null_terminator_keeps_null_witness :
  _strip_null_terminator (lit " Hi" ++ [0] ++ lit " ") = lit "Hi" ++ [0].
Proof.
  apply (proj2 (strip_null_terminator_keeps_null (lit " Hi") (lit " "))).
  - discriminate.
  - reflexivity.
Defined.

Lemma decode_stream_data_odd_witness :
  decode_stream_data (ascii_bytes "abc") = Ok (lit "abc").
Proof.
  apply (proj2 (decode_stream_data_odd (ascii_bytes "abc") eq_refl)).
  reflexivity.
Defined.

Lemma decode_stream_data_even_ascii_witness :
  decode_stream_data (ascii_bytes "Hi") = Ok [0x6948]
  /\ decode_stream_data (ascii_bytes "Hi") <> Ok (lit "Hi").
Proof.
  assert (Hne : ascii_bytes "Hi" <> []) by discriminate.
  destruct (proj2 (decode_stream_data_even_ascii (ascii_bytes "Hi")
                                                 eq_refl eq_refl)
                  eq_refl Hne)
    as (Hrun & _ & _ & Hdiff).
  split; [exact Hrun | exact Hdiff].
Defined.

Lemma process_html_stream_odd_witness :
  _process_html_stream Sample.htmlToText lower_latin1
                       (ascii_bytes "<div>x</div> ")
  = Ok (Sample.htmlToText (lit "<div>x</div>")).
Proof.
  apply (process_html_stream_odd Sample.htmlToText lower_latin1
                                 (ascii_bytes "<div>x</div> ") eq_refl).
Defined.

Lemma accepts_markers_substrings_witness :
  fst (accepts lower_latin1 Sample.repr string unit
               (Some (Sample.package Sample.full_message)) []
               (Sample.undeclared "mail") tt Sample.world)
  = Ok true.
Proof.
  apply (proj2 (accepts_markers_substrings
                  lower_latin1 Sample.repr string unit
                  (Some (Sample.package Sample.full_message))
                  (Sample.package Sample.full_message)
                  (Sample.container Sample.full_message)
                  (map (fun kv => [fst kv]) Sample.full_message)
                  [] (Sample.undeclared "mail") tt Sample.world
                  eq_refl eq_refl eq_refl eq_refl eq_refl)).
  split.
  - exists (lit "['"). eexists. reflexivity.
  - exists (lit "['__properties_version1.0']" ++ NL ++ lit "['").
    eexists. reflexivity.
Defined.

Lemma convert_result_layout_witness :
  exists r,
    fst (convert Sample.htmlToText lower_latin1 Sample.message_format
                 string unit (Some (Sample.package Sample.full_message)) []
                 (Sample.undeclared "mail.msg") tt Sample.world)
    = Ok r
    /\ markdown r =
       lit "# Email Message" ++ NL ++ NL
       ++ lit "**From:** Alice <a@x.com>" ++ NL
       ++ lit "**Subject:** Hi" ++ NL
       ++ NL ++ lit "## Content" ++ NL ++ NL ++ lit "Hi there".
Proof.
  eexists. split; [reflexivity|].
  destruct (convert_result_layout
              Sample.htmlToText lower_latin1 Sample.message_format string unit
              (Some (Sample.package Sample.full_message))
              (Sample.package Sample.full_message)
              (Sample.container Sample.full_message) 0
              [] (Sample.undeclared "mail.msg") tt Sample.world
              eq_refl eq_refl _ eq_refl)
    as [sender [email [Hs [He Hm]]]].
  vm_compute in Hs. vm_compute in He.
  injection Hs as <-. injection He as <-.
  rewrite Hm. reflexivity.
Defined.

Lemma convert_title_is_subject_witness :
  exists r,
    fst (convert Sample.htmlToText lower_latin1 Sample.message_format
                 string unit (Some (Sample.package Sample.bare_message)) []
                 (Sample.undeclared "mail.msg") tt Sample.world)
    = Ok r
    /\ title r = Some (lit "Hi").
Proof.
  eexists. split; [reflexivity|].
  apply (proj1 (convert_title_is_subject
                  Sample.htmlToText lower_latin1 Sample.message_format
                  string unit (Some (Sample.package Sample.bare_message))
                  (Sample.package Sample.bare_message)
                  (Sample.container Sample.bare_message) 0
                  [] (Sample.undeclared "mail.msg") tt Sample.world
                  eq_refl eq_refl _ eq_refl)).
Defined.

Lemma convert_without_content_witness :
  exists r,
    fst (convert Sample.htmlToText lower_latin1 Sample.message_format
                 string unit (Some (Sample.package Sample.bare_message)) []
                 (Sample.undeclared "mail.msg") tt Sample.world)
    = Ok r
    /\ markdown r =
       lit "# Email Message" ++ NL ++ NL
       ++ lit "**From:** Alice <a@x.com>" ++ NL
       ++ lit "**Subject:** Hi" ++ NL
       ++ NL ++ lit "## Content".
Proof.
  eexists. split; [reflexivity|].
  destruct (convert_without_content
              Sample.htmlToText lower_latin1 Sample.message_format string unit
              (Some (Sample.package Sample.bare_message))
              (Sample.package Sample.bare_message)
              (Sample.container Sample.bare_message) 0
              [] (Sample.undeclared "mail.msg") tt Sample.world
              eq_refl eq_refl _ eq_refl eq_refl)
    as [sender [email [Hs [He Hm]]]].
  vm_compute in Hs. vm_compute in He.
  injection Hs as <-. injection He as <-.
  rewrite Hm. reflexivity.
Defined.

Lemma convert_failures_witness :
  fst (convert Sample.htmlToText lower_latin1 Sample.message_format
               string unit (Some Sample.corrupt_package) []
               (Sample.undeclared "mail.msg") tt Sample.world)
  = Raise (LibraryError 3).
Proof.
  apply (proj2 (convert_failures
                  Sample.htmlToText lower_latin1 Sample.message_format
                  string unit (Some Sample.corrupt_package)
                  Sample.corrupt_package Sample.corrupt_container 0
                  [] (Sample.undeclared "mail.msg") tt Sample.world
                  eq_refl eq_refl)).
  - intros [H|[e H]]; vm_compute in H; [now elim H | discriminate].
  - intros [H|[e H]]; vm_compute in H; [now elim H | discriminate].
  - reflexivity.
  - right. split; reflexivity.
Defined.

Lemma convert_call_discipline_witness :
  exists calls,
    trace (snd (convert Sample.htmlToText lower_latin1 Sample.message_format
                        string unit
                        (Some (Sample.package Sample.nameless_message)) []
                        (Sample.undeclared "mail.msg") tt Sample.used_world))
    = trace Sample.used_world ++ Ole.Open :: calls
    /\ ~ In Ole.Close calls.
Proof.
  destruct (convert_call_discipline
              Sample.htmlToText lower_latin1 Sample.message_format string unit
              (Some (Sample.package Sample.nameless_message))
              (Sample.package Sample.nameless_message)
              (Sample.container Sample.nameless_message) 0
              [] (Sample.undeclared "mail.msg") tt Sample.used_world
              eq_refl eq_refl)
    as [calls (Htrace & _ & _ & _ & Hclose & _)].
  exists calls. split; [exact Htrace|].
  intros Hin. destruct (Hclose Hin) as [r [front [Hr _]]]. discriminate.
Defined.

Lemma accepts_rejects_without_trace_witness :
  accepts lower_latin1 Sample.repr string unit (Some Sample.failing_package)
          [] (Sample.undeclared "mail") tt Sample.used_world
  = (Ok false, Sample.used_world).
Proof.
  apply (accepts_rejects_without_trace
           lower_latin1 Sample.repr string unit (Some Sample.failing_package)
           Sample.failing_package [] (Sample.undeclared "mail") tt
           Sample.used_world eq_refl eq_refl).
  right. exists (LibraryError 1). reflexivity.
Defined.

Lemma accepts_leaves_container_open_witness :
  snd (accepts lower_latin1 Sample.repr string unit
               (Some (Sample.package Sample.full_message)) []
               (Sample.undeclared "mail") tt Sample.world)
  = mkWorld 7 1 [Ole.Open; Ole.Listdir].
Proof.
  apply (accepts_leaves_container_open
           lower_latin1 Sample.repr string unit
           (Some (Sample.package Sample.full_message))
           (Sample.package Sample.full_message)
           (Sample.container Sample.full_message) []
           (Sample.undeclared "mail") tt Sample.world
           eq_refl eq_refl eq_refl eq_refl).
Defined.

Lemma accepts_then_convert_witness :
  let w' := snd (accepts lower_latin1 Sample.repr string unit
                         (Some (Sample.package Sample.full_message)) []
                         (Sample.undeclared "mail") tt Sample.world) in
  exists calls,
    trace (snd (convert Sample.htmlToText lower_latin1 Sample.message_format
                        string unit
                        (Some (Sample.package Sample.full_message)) []
                        (Sample.undeclared "mail") tt w'))
    = trace w' ++ Ole.Open :: calls.
Proof.
  apply (accepts_then_convert
           Sample.htmlToText lower_latin1 Sample.repr Sample.message_format
           string unit (Some (Sample.package Sample.full_message)) []
           (Sample.undeclared "mail") tt Sample.world eq_refl eq_refl).
Defined.

Lemma process_html_stream_only_plausible_witness :
  Sample.htmlToText (lit "<div>x</div>") = []
  \/ exists html,
       In html (spec_html_attempts (ascii_bytes "<div>x</div> "))
       /\ is_valid_html lower_latin1 html = true
       /\ Sample.htmlToText (lit "<div>x</div>") = Sample.htmlToText html.
Proof.
  apply (process_html_stream_only_plausible
           Sample.htmlToText lower_latin1 (ascii_bytes "<div>x</div> ")
           (Sample.htmlToText (lit "<div>x</div>"))).
  reflexivity.
Defined.

Lemma convert_blank_body_uses_html_witness :
  let run := convert Sample.htmlToText lower_latin1 Sample.message_format
                     string unit
                     (Some (Sample.package Sample.blank_body_message)) []
                     (Sample.undeclared "mail.msg") tt Sample.world in
  In (Ole.Exists PATH_HTML) (trace (snd run))
  /\ exists r,
       fst run = Ok r
       /\ markdown r =
          lit "# Email Message" ++ NL ++ NL
          ++ lit "**From:** Alice <a@x.com>" ++ NL
          ++ NL ++ lit "## Content" ++ NL ++ NL
          ++ Sample.htmlToText (lit "<html><body>Hi</body></html>").
Proof.
  cbv zeta.
  destruct (convert_blank_body_uses_html
              Sample.htmlToText lower_latin1 Sample.message_format string unit
              (Some (Sample.package Sample.blank_body_message))
              (Sample.package Sample.blank_body_message)
              (Sample.container Sample.blank_body_message) 0
              [] (Sample.undeclared "mail.msg") tt Sample.world
              eq_refl eq_refl (utf16le_bytes "  "))
    as (_ & Htrace & Hcontent).
  - intros [H|[e H]]; vm_compute in H; [now elim H | discriminate].
  - intros [H|[e H]]; vm_compute in H; [now elim H | discriminate].
  - reflexivity.
  - reflexivity.
  - reflexivity.
  - split; [exact Htrace|].
    destruct (Hcontent (ascii_bytes "<html><body>Hi</body></html>")
                       eq_refl eq_refl)
      as [r [sender [email (Hr & Hs & He & Hm)]]].
    exists r. split; [exact Hr|].
    vm_compute in Hs. vm_compute in He.
    injection Hs as <-. injection He as <-.
    rewrite Hm. reflexivity.
Defined.
